(** * Verification of the benchmark execution module

    Shallow embedding of [server/modules/exbench_module.py]:
    [parse_model_string], [run_benchmark_for_model] and [generate_report].

    Conventions of the embedding.
    - Python [str] values are [string]s (sequences of 8-bit characters).
    - Python [int] values are [Z]; Python [float] values (timing metrics,
      accuracies) are exact rationals [Q]: the properties below concern
      which quotient is computed and whether its denominator is zero, not
      rounding.
    - A Python call either returns a value or raises an instance of
      [Exception]; this is the type [result].  Calls to [print] have no
      influence on the returned values and are left out.
    - The functions imported from other modules of the repository
      ([bench_prompt] of each provider, [parse_markdown_backticks],
      [execute_python_code], [eval_result_compare]) are gathered in the
      record [Collaborators]; like every Python call they may raise. *)

From Stdlib Require Import String Ascii List ZArith QArith Lia Bool.
From Stdlib Require Import DecimalString.
Import ListNotations.

Local Open Scope string_scope.
Local Open Scope list_scope.

(* ================================================================== *)
(** ** Exceptions and the error monad *)

(** Instances of Python's [Exception], by class, with their message. *)
Inductive PyException : Type :=
| ValueError (msg : string)
| ZeroDivisionError (msg : string)
| KeyError (msg : string)
| OtherException (cls : string) (msg : string).

(** [str(e)] *)
Definition str_exception (e : PyException) : string :=
  match e with
  | ValueError m => m
  | ZeroDivisionError m => m
  | KeyError m => m
  | OtherException _ m => m
  end.

Inductive result (A : Type) : Type :=
| Ok (a : A)
| Raise (e : PyException).
Arguments Ok {A} a.
Arguments Raise {A} e.

Definition bind {A B : Type} (m : result A) (k : A -> result B) : result B :=
  match m with
  | Ok a => k a
  | Raise e => Raise e
  end.

Notation "x <- m ;; k" := (bind m (fun x => k))
  (at level 61, m at next level, right associativity).
Notation "' pat <- m ;; k" := (bind m (fun x => match x with pat => k end))
  (at level 61, pat pattern, m at next level, right associativity).

(** [try: m  except Exception as e: h e] *)
Definition try_except {A : Type} (m : result A) (h : PyException -> result A)
  : result A :=
  match m with
  | Ok a => Ok a
  | Raise e => h e
  end.

(* ================================================================== *)
(** ** The string methods the module uses *)

Module PyStr.

(** [sub in s] *)
Fixpoint contains (sub s : string) : bool :=
  match s with
  | EmptyString => prefix sub EmptyString
  | String _ s' => prefix sub s || contains sub s'
  end.

(** [s.split(sep)] for a non-empty [sep], scanning left to right; [skip]
    counts the characters of a matched separator still to be consumed. *)
Fixpoint split_from (sep : string) (skip : nat) (s : string) : list string :=
  match s with
  | EmptyString => [EmptyString]
  | String c s' =>
      match skip with
      | S k => split_from sep k s'
      | O =>
          if prefix sep s
          then EmptyString :: split_from sep (String.length sep - 1) s'
          else match split_from sep 0 s' with
               | p :: ps => String c p :: ps
               | [] => [String c EmptyString]
               end
      end
  end.

(** [s.split(sep)]; Python raises [ValueError] on an empty separator. *)
Definition split (sep s : string) : result (list string) :=
  match sep with
  | EmptyString => Raise (ValueError "empty separator")
  | _ => Ok (split_from sep 0 s)
  end.

(** [sep.join(parts)] *)
Definition join (sep : string) (parts : list string) : string :=
  String.concat sep parts.

(** [s.replace(old, new)] for a non-empty [old]. *)
Fixpoint replace_from (old new : string) (skip : nat) (s : string) : string :=
  match s with
  | EmptyString => EmptyString
  | String c s' =>
      match skip with
      | S k => replace_from old new k s'
      | O =>
          if prefix old s
          then new ++ replace_from old new (String.length old - 1) s'
          else String c (replace_from old new 0 s')
      end
  end.

(** With an empty [old], Python inserts [new] before every character and
    at the end. *)
Fixpoint intersperse (new s : string) : string :=
  match s with
  | EmptyString => new
  | String c s' => new ++ String c (intersperse new s')
  end.

(** [s.replace(old, new)] *)
Definition replace (old new s : string) : string :=
  match old with
  | EmptyString => intersperse new s
  | _ => replace_from old new 0 s
  end.

(** The characters [str.strip()] removes (those of [str.isspace] below
    code 128): tab, line feed, vertical tab, form feed, carriage return,
    the four separators 28..31, and space. *)
Definition is_space (c : ascii) : bool :=
  let n := nat_of_ascii c in
  ((9 <=? n) && (n <=? 13) || (28 <=? n) && (n <=? 32))%nat.

Fixpoint lstrip (s : string) : string :=
  match s with
  | EmptyString => EmptyString
  | String c s' => if is_space c then lstrip s' else s
  end.

Fixpoint rstrip (s : string) : string :=
  match s with
  | EmptyString => EmptyString
  | String c s' =>
      match rstrip s' with
      | EmptyString => if is_space c then EmptyString else String c EmptyString
      | r => String c r
      end
  end.

(** [s.strip()] *)
Definition strip (s : string) : string := rstrip (lstrip s).

End PyStr.

(* ================================================================== *)
(** ** Model identifier parser *)

Definition provider_delimiter : string := "~".

Definition supported_providers : list string :=
  ["ollama"; "anthropic"; "deepseek"; "openai"; "gemini"].

(** [x in xs] on a list of strings *)
Definition str_in (x : string) (xs : list string) : bool :=
  existsb (String.eqb x) xs.

Definition parse_model_string (model : string) : result (string * string) :=
  if negb (PyStr.contains provider_delimiter model)
  then Ok ("ollama", model)
  else
    parts <- PyStr.split provider_delimiter model ;;
    match parts with
    | [] => Raise (ValueError "not enough values to unpack (expected at least 1, got 0)")
    | provider :: model_parts =>
        let model_name := PyStr.join provider_delimiter model_parts in
        if negb (str_in provider supported_providers)
        then Raise (ValueError ("Unsupported provider: " ++ provider ++ ". "
                     ++ "Supported providers are: "
                     ++ PyStr.join ", " supported_providers))
        else Ok (provider, model_name)
    end.

(* ================================================================== *)
(** ** Data types ([modules.data_types]) *)

(** Scalars found in a prompt row: variable values and expectations. *)
Inductive PyValue : Type :=
| VStr (s : string)
| VInt (z : Z)
| VBool (b : bool).

(** [str(v)] *)
Definition py_str (v : PyValue) : string :=
  match v with
  | VStr s => s
  | VInt z => NilZero.string_of_int (Z.to_int z)
  | VBool true => "True"
  | VBool false => "False"
  end.

(** The evaluator kinds this module compares against; the enumeration is
    declared in another module, so every further member is kept as
    [other_evaluator], carrying the text it formats to. *)
Inductive ExeEvalType : Type :=
| execute_python_code_with_num_output
| execute_python_code_with_string_output
| raw_string_evaluator
| other_evaluator (text : string).

Definition format_evaluator (k : ExeEvalType) : string :=
  match k with
  | execute_python_code_with_num_output => "execute_python_code_with_num_output"
  | execute_python_code_with_string_output => "execute_python_code_with_string_output"
  | raw_string_evaluator => "raw_string_evaluator"
  | other_evaluator text => text
  end.

Module BenchPromptResponse.
Record t : Type := Build {
  response : string;
  tokens_per_second : Q;
  provider : string;
  total_duration_ms : Q;
  load_duration_ms : Q;
  errored : bool
}.
End BenchPromptResponse.

Module PromptRow.
Record t : Type := Build {
  dynamic_variables : option (list (string * PyValue));
  expectation : PyValue
}.
End PromptRow.

Module ExecEvalBenchmarkFile.
Record t : Type := Build {
  benchmark_name : string;
  purpose : string;
  base_prompt : string;
  evaluator : ExeEvalType;
  prompts : list PromptRow.t
}.
End ExecEvalBenchmarkFile.

Module ExeEvalBenchmarkOutputResult.
Record t : Type := Build {
  input_prompt : string;
  prompt_response : BenchPromptResponse.t;
  execution_result : string;
  expected_result : string;
  model : string;
  correct : bool;
  index : Z
}.
End ExeEvalBenchmarkOutputResult.

Module ExecEvalBenchmarkCompleteResult.
Record t : Type := Build {
  benchmark_file : ExecEvalBenchmarkFile.t;
  results : list ExeEvalBenchmarkOutputResult.t
}.
End ExecEvalBenchmarkCompleteResult.

Module ExecEvalBenchmarkModelReport.
Record t : Type := Build {
  model : string;
  results : list ExeEvalBenchmarkOutputResult.t;
  correct_count : Z;
  incorrect_count : Z;
  accuracy : Q;
  average_tokens_per_second : Q;
  average_total_duration_ms : Q;
  average_load_duration_ms : Q
}.
End ExecEvalBenchmarkModelReport.

Module ExecEvalBenchmarkReport.
Record t : Type := Build {
  benchmark_name : string;
  purpose : string;
  models : list ExecEvalBenchmarkModelReport.t;
  overall_correct_count : Z;
  overall_incorrect_count : Z;
  overall_accuracy : Q;
  average_tokens_per_second : Q;
  average_total_duration_ms : Q;
  average_load_duration_ms : Q
}.
End ExecEvalBenchmarkReport.

Definition OutputResult : Type := ExeEvalBenchmarkOutputResult.t.
Definition ModelReport : Type := ExecEvalBenchmarkModelReport.t.

(* ================================================================== *)
(** ** Calls with effects

    A provider call or a code execution acts on the outside world, and
    two calls with the same arguments need not answer alike: such calls
    take the state of the world [W] and return the new one, together with
    their value or the exception they raise. *)

Section Effects.
Context {W : Type}.

Definition M (A : Type) : Type := W -> result A * W.

Definition ret {A : Type} (a : A) : M A := fun w => (Ok a, w).

Definition raise {A : Type} (e : PyException) : M A := fun w => (Raise e, w).

Definition lift {A : Type} (r : result A) : M A := fun w => (r, w).

Definition bindM {A B : Type} (m : M A) (k : A -> M B) : M B :=
  fun w =>
    match m w with
    | (Ok a, w') => k a w'
    | (Raise e, w') => (Raise e, w')
    end.

(** [try: m  except Exception as e: h e] *)
Definition try_exceptM {A : Type} (m : M A) (h : PyException -> M A) : M A :=
  fun w =>
    match m w with
    | (Ok a, w') => (Ok a, w')
    | (Raise e, w') => h e w'
    end.

End Effects.
Arguments M W A : clear implicits.

Notation "x <~ m ;; k" := (bindM m (fun x => k))
  (at level 61, m at next level, right associativity).
Notation "' pat <~ m ;; k" := (bindM m (fun x => match x with pat => k end))
  (at level 61, pat pattern, m at next level, right associativity).

(** The functions [run_benchmark_for_model] imports from the other
    modules of the repository. *)
Record Collaborators (W : Type) : Type := {
  (** [ollama_llm.bench_prompt(prompt, model_name)] *)
  ollama_bench_prompt : string -> string -> M W BenchPromptResponse.t;
  (** [anthropic_llm.bench_prompt] *)
  anthropic_bench_prompt : string -> string -> M W BenchPromptResponse.t;
  (** [deepseek_llm.bench_prompt] *)
  deepseek_bench_prompt : string -> string -> M W BenchPromptResponse.t;
  (** [modules.openai_llm.bench_prompt] *)
  openai_bench_prompt : string -> string -> M W BenchPromptResponse.t;
  (** [gemini_llm.bench_prompt] *)
  gemini_bench_prompt : string -> string -> M W BenchPromptResponse.t;
  (** [utils.parse_markdown_backticks(text)] *)
  parse_markdown_backticks : string -> M W string;
  (** [execution_evaluators.execute_python_code(code)] *)
  execute_python_code : string -> M W string;
  (** [execution_evaluators.eval_result_compare(kind, expected, actual)] *)
  eval_result_compare : ExeEvalType -> string -> string -> M W bool
}.
Arguments ollama_bench_prompt {W}.
Arguments anthropic_bench_prompt {W}.
Arguments deepseek_bench_prompt {W}.
Arguments openai_bench_prompt {W}.
Arguments gemini_bench_prompt {W}.
Arguments parse_markdown_backticks {W}.
Arguments execute_python_code {W}.
Arguments eval_result_compare {W}.

(* ================================================================== *)
(** ** Benchmark execution *)

(** The marker [{{key}}] built by the f-string of the templating loop. *)
Definition marker (key : string) : string := "{{" ++ key ++ "}}".

(** Truth value of an optional dict: [None] and the empty dict are false. *)
Definition dict_truthy {A : Type} (d : option (list A)) : bool :=
  match d with
  | None => false
  | Some [] => false
  | Some (_ :: _) => true
  end.

(** [d.items()], in insertion order. *)
Definition items {A : Type} (d : option (list A)) : list A :=
  match d with
  | None => []
  | Some l => l
  end.

(** Lines 103-106: the base prompt with the dynamic variables replaced,
    one key after the other. *)
Definition render_prompt (base_prompt : string)
    (dynamic_variables : option (list (string * PyValue))) : string :=
  if dict_truthy dynamic_variables
  then fold_left
         (fun prompt kv => PyStr.replace (marker (fst kv)) (py_str (snd kv)) prompt)
         (items dynamic_variables) base_prompt
  else base_prompt.

(** The branch of the provider chain (lines 109-137) a tag selects. *)
Inductive DispatchBranch : Type :=
| ToOllama | ToAnthropic | ToDeepseek | ToOpenai | ToGemini
| UnsupportedModelProvider.

Definition dispatch_branch (provider : string) : DispatchBranch :=
  if (provider =? "ollama")%string then ToOllama
  else if (provider =? "anthropic")%string then ToAnthropic
  else if (provider =? "deepseek")%string then ToDeepseek
  else if (provider =? "openai")%string then ToOpenai
  else if (provider =? "gemini")%string then ToGemini
  else UnsupportedModelProvider.

(** The response built when the ollama call raises (lines 115-122). *)
Definition ollama_error_response (e : PyException) : BenchPromptResponse.t :=
  {| BenchPromptResponse.response := "Error: " ++ str_exception e;
     BenchPromptResponse.tokens_per_second := 0;
     BenchPromptResponse.provider := "ollama";
     BenchPromptResponse.total_duration_ms := 0;
     BenchPromptResponse.load_duration_ms := 0;
     BenchPromptResponse.errored := true |}.

Section Runner.
Context {W : Type} (C : Collaborators W).

(** Lines 109-137: the benchmark response, by provider. *)
Definition get_bench_response (provider prompt model_name : string)
  : M W BenchPromptResponse.t :=
  match dispatch_branch provider with
  | ToOllama =>
      try_exceptM (ollama_bench_prompt C prompt model_name)
                  (fun e => ret (ollama_error_response e))
  | ToAnthropic => anthropic_bench_prompt C prompt model_name
  | ToDeepseek => deepseek_bench_prompt C prompt model_name
  | ToOpenai => openai_bench_prompt C prompt model_name
  | ToGemini => gemini_bench_prompt C prompt model_name
  | UnsupportedModelProvider =>
      raise (ValueError ("Unsupported model provider: " ++ provider ++ ". "
               ++ "Supported providers are: ollama, anthropic, deepseek, openai"))
  end.

(** Lines 145-168, the body of the [try]: the pair
    [(execution_result, correct)] it leaves when it completes. *)
Definition evaluate (evaluator : ExeEvalType) (cleaned_code expected_result : string)
  : M W (string * bool) :=
  match evaluator with
  | execute_python_code_with_num_output =>
      execution_result <~ execute_python_code C cleaned_code ;;
      let parsed_execution_result := PyStr.strip execution_result in
      correct <~ eval_result_compare C evaluator expected_result
                   parsed_execution_result ;;
      ret (execution_result, correct)
  | execute_python_code_with_string_output =>
      execution_result <~ execute_python_code C cleaned_code ;;
      correct <~ eval_result_compare C evaluator expected_result execution_result ;;
      ret (execution_result, correct)
  | raw_string_evaluator =>
      let execution_result := cleaned_code in
      correct <~ eval_result_compare C evaluator expected_result execution_result ;;
      ret (execution_result, correct)
  | other_evaluator _ =>
      raise (ValueError ("Unsupported evaluator: " ++ format_evaluator evaluator))
  end.

(** Lines 144-172: the [try] with its handler. *)
Definition evaluate_guarded (evaluator : ExeEvalType)
    (cleaned_code expected_result : string) : M W (string * bool) :=
  try_exceptM (evaluate evaluator cleaned_code expected_result)
              (fun e => ret (str_exception e, false)).

(** Lines 100-185: one iteration of the loop, giving the result it
    appends. *)
Definition run_prompt (provider model_name model : string)
    (benchmark_file : ExecEvalBenchmarkFile.t) (i : Z) (prompt_row : PromptRow.t)
  : M W OutputResult :=
  let prompt := render_prompt (ExecEvalBenchmarkFile.base_prompt benchmark_file)
                              (PromptRow.dynamic_variables prompt_row) in
  bench_response <~ get_bench_response provider prompt model_name ;;
  cleaned_code <~ parse_markdown_backticks C
                    (BenchPromptResponse.response bench_response) ;;
  let expected_result := PyStr.strip (py_str (PromptRow.expectation prompt_row)) in
  ' (execution_result, correct) <~
      evaluate_guarded (ExecEvalBenchmarkFile.evaluator benchmark_file)
                       cleaned_code expected_result ;;
  ret {| ExeEvalBenchmarkOutputResult.input_prompt := prompt;
         ExeEvalBenchmarkOutputResult.prompt_response := bench_response;
         ExeEvalBenchmarkOutputResult.execution_result := execution_result;
         ExeEvalBenchmarkOutputResult.expected_result := expected_result;
         ExeEvalBenchmarkOutputResult.model := model;
         ExeEvalBenchmarkOutputResult.correct := correct;
         ExeEvalBenchmarkOutputResult.index := i |}.

(** Line 99: the loop over [enumerate(benchmark_file.prompts, 1)], from
    position [i] on, appending to [results]. *)
Fixpoint run_prompts (provider model_name model : string)
    (benchmark_file : ExecEvalBenchmarkFile.t) (i : Z)
    (rows : list PromptRow.t) (results : list OutputResult)
  : M W (list OutputResult) :=
  match rows with
  | [] => ret results
  | prompt_row :: rest =>
      r <~ run_prompt provider model_name model benchmark_file i prompt_row ;;
      run_prompts provider model_name model benchmark_file (i + 1) rest
                  (results ++ [r])
  end.

Definition run_benchmark_for_model (model : string)
    (benchmark_file : ExecEvalBenchmarkFile.t) : M W (list OutputResult) :=
  ' (provider, model_name) <~ lift (parse_model_string model) ;;
  run_prompts provider model_name model benchmark_file 1
              (ExecEvalBenchmarkFile.prompts benchmark_file) [].

End Runner.

(* ================================================================== *)
(** ** Report generation *)

(** A Python dict from model strings to lists of results: an association
    list in insertion order, which is the order [items()] follows. *)
Definition Dict : Type := list (string * list OutputResult).

(** [k in d] *)
Fixpoint dict_contains (k : string) (d : Dict) : bool :=
  match d with
  | [] => false
  | (k', _) :: d' => (k =? k')%string || dict_contains k d'
  end.

(** [d[k]], which raises [KeyError] for a missing key. *)
Fixpoint dict_getitem (k : string) (d : Dict) : result (list OutputResult) :=
  match d with
  | [] => Raise (KeyError ("'" ++ k ++ "'"))
  | (k', v) :: d' => if (k =? k')%string then Ok v else dict_getitem k d'
  end.

(** [d[k] = v]: an existing key keeps its position, a new one goes last. *)
Fixpoint dict_setitem (k : string) (v : list OutputResult) (d : Dict) : Dict :=
  match d with
  | [] => [(k, v)]
  | (k', v') :: d' =>
      if (k =? k')%string then (k', v) :: d' else (k', v') :: dict_setitem k v d'
  end.

(** [a / b] on numbers. *)
Definition truediv (a b : Q) : result Q :=
  if Qeq_bool b 0
  then Raise (ZeroDivisionError "division by zero")
  else Ok (a / b).

(** [sum(...)] over floats and over ints: from 0, left to right. *)
Definition sumQ (l : list Q) : Q := fold_left Qplus l 0.
Definition sumZ (l : list Z) : Z := fold_left Z.add l 0%Z.

(** [len(l)] *)
Definition len {A : Type} (l : list A) : Z := Z.of_nat (List.length l).

(** The local variables of [generate_report] that its two stages share or
    that its [return] reads.  The variables of the loop bodies that are
    assigned at the head of every iteration ([result], [model],
    [results], [correct_count], [incorrect_count], [accuracy]) are bound
    by [let]. *)
Record Frame : Type := {
  model_reports : list ModelReport;
  model_results : Dict;
  overall_correct : Z;
  overall_incorrect : Z;
  overall_accuracy : Q;
  avg_tokens_per_second : Q;
  avg_total_duration : Q;
  avg_load_duration : Q
}.

Definition set_model_reports (v : list ModelReport) (f : Frame) : Frame :=
  {| model_reports := v; model_results := model_results f;
     overall_correct := overall_correct f; overall_incorrect := overall_incorrect f;
     overall_accuracy := overall_accuracy f;
     avg_tokens_per_second := avg_tokens_per_second f;
     avg_total_duration := avg_total_duration f;
     avg_load_duration := avg_load_duration f |}.

Definition set_model_results (v : Dict) (f : Frame) : Frame :=
  {| model_reports := model_reports f; model_results := v;
     overall_correct := overall_correct f; overall_incorrect := overall_incorrect f;
     overall_accuracy := overall_accuracy f;
     avg_tokens_per_second := avg_tokens_per_second f;
     avg_total_duration := avg_total_duration f;
     avg_load_duration := avg_load_duration f |}.

Definition set_overall_correct (v : Z) (f : Frame) : Frame :=
  {| model_reports := model_reports f; model_results := model_results f;
     overall_correct := v; overall_incorrect := overall_incorrect f;
     overall_accuracy := overall_accuracy f;
     avg_tokens_per_second := avg_tokens_per_second f;
     avg_total_duration := avg_total_duration f;
     avg_load_duration := avg_load_duration f |}.

Definition set_overall_incorrect (v : Z) (f : Frame) : Frame :=
  {| model_reports := model_reports f; model_results := model_results f;
     overall_correct := overall_correct f; overall_incorrect := v;
     overall_accuracy := overall_accuracy f;
     avg_tokens_per_second := avg_tokens_per_second f;
     avg_total_duration := avg_total_duration f;
     avg_load_duration := avg_load_duration f |}.

Definition set_overall_accuracy (v : Q) (f : Frame) : Frame :=
  {| model_reports := model_reports f; model_results := model_results f;
     overall_correct := overall_correct f; overall_incorrect := overall_incorrect f;
     overall_accuracy := v;
     avg_tokens_per_second := avg_tokens_per_second f;
     avg_total_duration := avg_total_duration f;
     avg_load_duration := avg_load_duration f |}.

Definition set_avg_tokens_per_second (v : Q) (f : Frame) : Frame :=
  {| model_reports := model_reports f; model_results := model_results f;
     overall_correct := overall_correct f; overall_incorrect := overall_incorrect f;
     overall_accuracy := overall_accuracy f;
     avg_tokens_per_second := v;
     avg_total_duration := avg_total_duration f;
     avg_load_duration := avg_load_duration f |}.

Definition set_avg_total_duration (v : Q) (f : Frame) : Frame :=
  {| model_reports := model_reports f; model_results := model_results f;
     overall_correct := overall_correct f; overall_incorrect := overall_incorrect f;
     overall_accuracy := overall_accuracy f;
     avg_tokens_per_second := avg_tokens_per_second f;
     avg_total_duration := v;
     avg_load_duration := avg_load_duration f |}.

Definition set_avg_load_duration (v : Q) (f : Frame) : Frame :=
  {| model_reports := model_reports f; model_results := model_results f;
     overall_correct := overall_correct f; overall_incorrect := overall_incorrect f;
     overall_accuracy := overall_accuracy f;
     avg_tokens_per_second := avg_tokens_per_second f;
     avg_total_duration := avg_total_duration f;
     avg_load_duration := v |}.

(** The frame on entry: no variable is bound yet, the values are
    placeholders. *)
Definition initial_frame : Frame :=
  {| model_reports := []; model_results := [];
     overall_correct := 0; overall_incorrect := 0; overall_accuracy := 0;
     avg_tokens_per_second := 0; avg_total_duration := 0;
     avg_load_duration := 0 |}.

(** Lines 258-261: one iteration of the grouping loop. *)
Definition group_result (f : Frame) (res : OutputResult) : result Frame :=
  let key := ExeEvalBenchmarkOutputResult.model res in
  let f :=
    if negb (dict_contains key (model_results f))
    then set_model_results (dict_setitem key [] (model_results f)) f
    else f in
  group <- dict_getitem key (model_results f) ;;
  Ok (set_model_results (dict_setitem key (group ++ [res]) (model_results f)) f).

Fixpoint group_results (l : list OutputResult) (f : Frame) : result Frame :=
  match l with
  | [] => Ok f
  | res :: rest => f' <- group_result f res ;; group_results rest f'
  end.

(** [sum(1 for r in results if r.correct)] *)
Definition count_correct (results : list OutputResult) : Z :=
  sumZ (map (fun _ => 1%Z) (filter ExeEvalBenchmarkOutputResult.correct results)).

Definition tokens_per_second_of (r : OutputResult) : Q :=
  BenchPromptResponse.tokens_per_second (ExeEvalBenchmarkOutputResult.prompt_response r).
Definition total_duration_ms_of (r : OutputResult) : Q :=
  BenchPromptResponse.total_duration_ms (ExeEvalBenchmarkOutputResult.prompt_response r).
Definition load_duration_ms_of (r : OutputResult) : Q :=
  BenchPromptResponse.load_duration_ms (ExeEvalBenchmarkOutputResult.prompt_response r).

(** Lines 264-290: one iteration of the loop over
    [model_results.items()]. *)
Definition report_model (f : Frame) (item : string * list OutputResult)
  : result Frame :=
  let model := fst item in
  let results := snd item in
  let correct_count := count_correct results in
  let incorrect_count := (len results - correct_count)%Z in
  accuracy <- truediv (inject_Z correct_count) (inject_Z (len results)) ;;
  v <- truediv (sumQ (map tokens_per_second_of results)) (inject_Z (len results)) ;;
  let f := set_avg_tokens_per_second v f in
  v <- truediv (sumQ (map total_duration_ms_of results)) (inject_Z (len results)) ;;
  let f := set_avg_total_duration v f in
  v <- truediv (sumQ (map load_duration_ms_of results)) (inject_Z (len results)) ;;
  let f := set_avg_load_duration v f in
  Ok (set_model_reports
        (model_reports f ++
         [ {| ExecEvalBenchmarkModelReport.model := model;
              ExecEvalBenchmarkModelReport.results := results;
              ExecEvalBenchmarkModelReport.correct_count := correct_count;
              ExecEvalBenchmarkModelReport.incorrect_count := incorrect_count;
              ExecEvalBenchmarkModelReport.accuracy := accuracy;
              ExecEvalBenchmarkModelReport.average_tokens_per_second :=
                avg_tokens_per_second f;
              ExecEvalBenchmarkModelReport.average_total_duration_ms :=
                avg_total_duration f;
              ExecEvalBenchmarkModelReport.average_load_duration_ms :=
                avg_load_duration f |} ])
        f).

Fixpoint report_models (l : Dict) (f : Frame) : result Frame :=
  match l with
  | [] => Ok f
  | item :: rest => f' <- report_model f item ;; report_models rest f'
  end.

(** Lines 293-305 (and 232-244): the overall statistics. *)
Definition overall_statistics (f : Frame) : result Frame :=
  let f := set_overall_correct
             (sumZ (map ExecEvalBenchmarkModelReport.correct_count (model_reports f))) f in
  let f := set_overall_incorrect
             (sumZ (map ExecEvalBenchmarkModelReport.incorrect_count (model_reports f))) f in
  v <- truediv (inject_Z (overall_correct f))
               (inject_Z (overall_correct f + overall_incorrect f)) ;;
  let f := set_overall_accuracy v f in
  v <- truediv (sumQ (map ExecEvalBenchmarkModelReport.average_tokens_per_second
                          (model_reports f)))
               (inject_Z (len (model_reports f))) ;;
  let f := set_avg_tokens_per_second v f in
  v <- truediv (sumQ (map ExecEvalBenchmarkModelReport.average_total_duration_ms
                          (model_reports f)))
               (inject_Z (len (model_reports f))) ;;
  let f := set_avg_total_duration v f in
  v <- truediv (sumQ (map ExecEvalBenchmarkModelReport.average_load_duration_ms
                          (model_reports f)))
               (inject_Z (len (model_reports f))) ;;
  Ok (set_avg_load_duration v f).

(** One aggregation pass: lines 193-244, and again lines 254-305. *)
Definition aggregation_pass (complete_result : ExecEvalBenchmarkCompleteResult.t)
    (f : Frame) : result Frame :=
  let f := set_model_reports [] f in
  let f := set_model_results [] f in
  f <- group_results (ExecEvalBenchmarkCompleteResult.results complete_result) f ;;
  f <- report_models (model_results f) f ;;
  overall_statistics f.

(** Lines 307-317: the returned report. *)
Definition build_report (complete_result : ExecEvalBenchmarkCompleteResult.t)
    (f : Frame) : ExecEvalBenchmarkReport.t :=
  let benchmark_file := ExecEvalBenchmarkCompleteResult.benchmark_file complete_result in
  {| ExecEvalBenchmarkReport.benchmark_name :=
       ExecEvalBenchmarkFile.benchmark_name benchmark_file;
     ExecEvalBenchmarkReport.purpose := ExecEvalBenchmarkFile.purpose benchmark_file;
     ExecEvalBenchmarkReport.models := model_reports f;
     ExecEvalBenchmarkReport.overall_correct_count := overall_correct f;
     ExecEvalBenchmarkReport.overall_incorrect_count := overall_incorrect f;
     ExecEvalBenchmarkReport.overall_accuracy := overall_accuracy f;
     ExecEvalBenchmarkReport.average_tokens_per_second := avg_tokens_per_second f;
     ExecEvalBenchmarkReport.average_total_duration_ms := avg_total_duration f;
     ExecEvalBenchmarkReport.average_load_duration_ms := avg_load_duration f |}.

Definition generate_report (complete_result : ExecEvalBenchmarkCompleteResult.t)
  : result ExecEvalBenchmarkReport.t :=
  f <- aggregation_pass complete_result initial_frame ;;
  f <- aggregation_pass complete_result f ;;
  Ok (build_report complete_result f).

(** [generate_report] with its first pass (lines 193-244) removed. *)
Definition generate_report_single_pass
    (complete_result : ExecEvalBenchmarkCompleteResult.t)
  : result ExecEvalBenchmarkReport.t :=
  f <- aggregation_pass complete_result initial_frame ;;
  Ok (build_report complete_result f).

(* ================================================================== *)
(** ** Notions used to state the properties *)

(** The completion capability the provider chain calls for a remote
    (non-ollama) provider tag. *)
Definition remote_bench_prompt {W : Type} (C : Collaborators W) (provider : string)
  : option (string -> string -> M W BenchPromptResponse.t) :=
  match dispatch_branch provider with
  | ToAnthropic => Some (anthropic_bench_prompt C)
  | ToDeepseek => Some (deepseek_bench_prompt C)
  | ToOpenai => Some (openai_bench_prompt C)
  | ToGemini => Some (gemini_bench_prompt C)
  | ToOllama | UnsupportedModelProvider => None
  end.

(** The prompt of a row, as the loop renders it. *)
Definition prompt_of (benchmark_file : ExecEvalBenchmarkFile.t) (row : PromptRow.t)
  : string :=
  render_prompt (ExecEvalBenchmarkFile.base_prompt benchmark_file)
                (PromptRow.dynamic_variables row).

(** The expected text of a row. *)
Definition expected_of (row : PromptRow.t) : string :=
  PyStr.strip (py_str (PromptRow.expectation row)).

(** What a result takes over from the row it was computed for. *)
Definition result_of_row (benchmark_file : ExecEvalBenchmarkFile.t)
    (model : string) (row : PromptRow.t) (r : OutputResult) : Prop :=
  ExeEvalBenchmarkOutputResult.input_prompt r = prompt_of benchmark_file row /\
  ExeEvalBenchmarkOutputResult.expected_result r = expected_of row /\
  ExeEvalBenchmarkOutputResult.model r = model.

(** The positions [1..n]. *)
Definition positions (n : nat) : list Z := map Z.of_nat (seq 1 n).

(** Substitution of all markers at once, in one pass over the template:
    at each position the first key (in dict order) whose marker starts
    there is replaced by its value, and the scan goes on after the
    marker; the text put in is not scanned again. *)
Fixpoint substitute_from (vars : list (string * PyValue)) (skip : nat)
    (s : string) : string :=
  match s with
  | EmptyString => EmptyString
  | String c s' =>
      match skip with
      | S k => substitute_from vars k s'
      | O =>
          match find (fun kv => prefix (marker (fst kv)) s) vars with
          | Some kv =>
              py_str (snd kv)
              ++ substitute_from vars (String.length (marker (fst kv)) - 1) s'
          | None => String c (substitute_from vars 0 s')
          end
      end
  end.

Definition substitute_simultaneously (template : string)
    (vars : list (string * PyValue)) : string :=
  substitute_from vars 0 template.

(** What a result adds to the count of correct results. *)
Definition one_if (b : bool) : Z := if b then 1%Z else 0%Z.

(** The grouping step (lines 258-261) in one traversal of the dict: the
    result joins the group of its model, or opens a new last group. *)
Fixpoint upsert (k : string) (res : OutputResult) (d : Dict) : Dict :=
  match d with
  | [] => [(k, [res])]
  | (k', v) :: d' =>
      if (k =? k')%string then (k', v ++ [res]) :: d' else (k', v) :: upsert k res d'
  end.

(** The groups of a list of results, from the groups [d] already made. *)
Definition groups_from (l : list OutputResult) (d : Dict) : Dict :=
  fold_left (fun d res => upsert (ExeEvalBenchmarkOutputResult.model res) res d) l d.

(** The report of one group, when its divisions are defined. *)
Definition model_report_of (item : string * list OutputResult) : ModelReport :=
  let results := snd item in
  {| ExecEvalBenchmarkModelReport.model := fst item;
     ExecEvalBenchmarkModelReport.results := results;
     ExecEvalBenchmarkModelReport.correct_count := count_correct results;
     ExecEvalBenchmarkModelReport.incorrect_count :=
       (len results - count_correct results)%Z;
     ExecEvalBenchmarkModelReport.accuracy :=
       inject_Z (count_correct results) / inject_Z (len results);
     ExecEvalBenchmarkModelReport.average_tokens_per_second :=
       sumQ (map tokens_per_second_of results) / inject_Z (len results);
     ExecEvalBenchmarkModelReport.average_total_duration_ms :=
       sumQ (map total_duration_ms_of results) / inject_Z (len results);
     ExecEvalBenchmarkModelReport.average_load_duration_ms :=
       sumQ (map load_duration_ms_of results) / inject_Z (len results) |}.

(** Two frames that hold the same reports and the same groups. *)
Definition same_tables (f1 f2 : Frame) : Prop :=
  model_reports f1 = model_reports f2 /\ model_results f1 = model_results f2.

(** Number of results, and of correct results, held by the groups. *)
Definition total_len (d : Dict) : Z := sumZ (map (fun it => len (snd it)) d).
Definition total_correct (d : Dict) : Z :=
  sumZ (map (fun it => count_correct (snd it)) d).

(** The frame before the overall statistics, and one pass as a function
    of the results alone. *)
Definition tables_of (complete_result : ExecEvalBenchmarkCompleteResult.t) : Frame :=
  let groups :=
    groups_from (ExecEvalBenchmarkCompleteResult.results complete_result) [] in
  set_model_results groups
    (set_model_reports (map model_report_of groups) initial_frame).

Definition aggregate (complete_result : ExecEvalBenchmarkCompleteResult.t)
  : result Frame :=
  overall_statistics (tables_of complete_result).

(** The arithmetic mean of a list of numbers. *)
Definition mean (l : list Q) : Q := sumQ l / inject_Z (len l).

(* ================================================================== *)
(** ** Concrete runs *)

Module Scenario.

(** A world that counts the completion calls made so far. *)
Definition completion (text : string) : string -> string -> M nat BenchPromptResponse.t :=
  fun _ _ calls =>
    (Ok {| BenchPromptResponse.response := text;
           BenchPromptResponse.tokens_per_second := 30;
           BenchPromptResponse.provider := "any";
           BenchPromptResponse.total_duration_ms := 1200;
           BenchPromptResponse.load_duration_ms := 100;
           BenchPromptResponse.errored := false |},
     S calls).

Definition failing_completion : string -> string -> M nat BenchPromptResponse.t :=
  fun _ _ calls => (Raise (OtherException "ConnectionError" "server down"), S calls).

(** Collaborators that all return normally; the comparison is textual. *)
Definition collaborators : Collaborators nat :=
  {| ollama_bench_prompt := completion "print(4)";
     anthropic_bench_prompt := completion "print(4)";
     deepseek_bench_prompt := completion "print(4)";
     openai_bench_prompt := completion "print(4)";
     gemini_bench_prompt := completion "print(4)";
     parse_markdown_backticks := fun text => ret (PyStr.strip text);
     execute_python_code := fun _ => ret "4";
     eval_result_compare := fun _ expected actual => ret (expected =? actual)%string |}.

(** The same, with an extractor that raises. *)
Definition collaborators_failing_extractor : Collaborators nat :=
  {| ollama_bench_prompt := completion "print(4)";
     anthropic_bench_prompt := completion "print(4)";
     deepseek_bench_prompt := completion "print(4)";
     openai_bench_prompt := completion "print(4)";
     gemini_bench_prompt := completion "print(4)";
     parse_markdown_backticks :=
       fun _ => raise (OtherException "TypeError" "expected string");
     execute_python_code := fun _ => ret "4";
     eval_result_compare := fun _ expected actual => ret (expected =? actual)%string |}.

(** The same as [collaborators], with generated code that fails to run. *)
Definition collaborators_failing_execution : Collaborators nat :=
  {| ollama_bench_prompt := completion "print(4)";
     anthropic_bench_prompt := completion "print(4)";
     deepseek_bench_prompt := completion "print(4)";
     openai_bench_prompt := completion "print(4)";
     gemini_bench_prompt := completion "print(4)";
     parse_markdown_backticks := fun text => ret (PyStr.strip text);
     execute_python_code :=
       fun _ => raise (OtherException "SyntaxError" "invalid syntax");
     eval_result_compare := fun _ expected actual => ret (expected =? actual)%string |}.

(** The same as [collaborators], with every completion call failing. *)
Definition collaborators_failing_provider : Collaborators nat :=
  {| ollama_bench_prompt := failing_completion;
     anthropic_bench_prompt := failing_completion;
     deepseek_bench_prompt := failing_completion;
     openai_bench_prompt := failing_completion;
     gemini_bench_prompt := failing_completion;
     parse_markdown_backticks := fun text => ret (PyStr.strip text);
     execute_python_code := fun _ => ret "4";
     eval_result_compare := fun _ expected actual => ret (expected =? actual)%string |}.

Definition rows : list PromptRow.t :=
  [ {| PromptRow.dynamic_variables := Some [("x", VInt 2); ("y", VInt 2)];
       PromptRow.expectation := VInt 4 |};
    {| PromptRow.dynamic_variables := Some [("x", VInt 1); ("y", VInt 3)];
       PromptRow.expectation := VStr " 4 " |} ].

Definition benchmark (kind : ExeEvalType) : ExecEvalBenchmarkFile.t :=
  {| ExecEvalBenchmarkFile.benchmark_name := "sums";
     ExecEvalBenchmarkFile.purpose := "add two numbers";
     ExecEvalBenchmarkFile.base_prompt := "print {{x}} + {{y}}";
     ExecEvalBenchmarkFile.evaluator := kind;
     ExecEvalBenchmarkFile.prompts := rows |}.

(** A template whose first variable brings in the marker of the second. *)
Definition nested_template : string := "Say {{a}}.".
Definition nested_variables : list (string * PyValue) :=
  [("a", VStr "{{b}}"); ("b", VStr "hello")].

(** Results of two models: A with 3 of 4 correct, B with 2 of 2. *)
Definition response : BenchPromptResponse.t :=
  {| BenchPromptResponse.response := "print(4)";
     BenchPromptResponse.tokens_per_second := 30;
     BenchPromptResponse.provider := "ollama";
     BenchPromptResponse.total_duration_ms := 1200;
     BenchPromptResponse.load_duration_ms := 100;
     BenchPromptResponse.errored := false |}.

Definition output (model : string) (i : Z) (correct : bool) : OutputResult :=
  {| ExeEvalBenchmarkOutputResult.input_prompt := "print 2 + 2";
     ExeEvalBenchmarkOutputResult.prompt_response := response;
     ExeEvalBenchmarkOutputResult.execution_result := if correct then "4" else "5";
     ExeEvalBenchmarkOutputResult.expected_result := "4";
     ExeEvalBenchmarkOutputResult.model := model;
     ExeEvalBenchmarkOutputResult.correct := correct;
     ExeEvalBenchmarkOutputResult.index := i |}.

Definition two_models : ExecEvalBenchmarkCompleteResult.t :=
  {| ExecEvalBenchmarkCompleteResult.benchmark_file :=
       benchmark execute_python_code_with_num_output;
     ExecEvalBenchmarkCompleteResult.results :=
       [ output "A" 1 true; output "A" 2 true; output "A" 3 false;
         output "A" 4 true; output "B" 1 true; output "B" 2 true ] |}.

Definition no_results : ExecEvalBenchmarkCompleteResult.t :=
  {| ExecEvalBenchmarkCompleteResult.benchmark_file :=
       benchmark execute_python_code_with_num_output;
     ExecEvalBenchmarkCompleteResult.results := [] |}.

End Scenario.

(* ================================================================== *)
(** ** File operations *)

(** What [save_report_to_file] calls outside this module: the directory
    creation [Path(output_dir).mkdir(exist_ok=True)], the clock read
    [datetime.now().strftime("%Y%m%d_%H%M%S")], the serialisation
    [report.model_dump_json(indent=4)], the opening of a file with mode
    "w" (which creates or empties it) and the write to the open file. *)
Record Storage (W : Type) : Type := {
  mkdir_exist_ok : string -> M W unit;
  now_strftime : M W string;
  open_w : string -> M W unit;
  model_dump_json : ExecEvalBenchmarkReport.t -> M W string;
  write_text : string -> string -> M W unit
}.
Arguments mkdir_exist_ok {W}.
Arguments now_strftime {W}.
Arguments open_w {W}.
Arguments model_dump_json {W}.
Arguments write_text {W}.

(** Line 80 *)
Definition safe_benchmark_name (benchmark_name : string) : string :=
  PyStr.replace " " "_" benchmark_name.

(** Line 81 *)
Definition report_filename (output_dir benchmark_name timestamp : string) : string :=
  output_dir ++ "/" ++ safe_benchmark_name benchmark_name ++ "_" ++ timestamp
  ++ ".json".

(** Lines 63-85.  The file is opened before the report is serialised,
    as the [with] statement evaluates [open] first. *)
Definition save_report_to_file {W : Type} (S : Storage W)
    (report : ExecEvalBenchmarkReport.t) (output_dir : string) : M W string :=
  _ <~ mkdir_exist_ok S output_dir ;;
  timestamp <~ now_strftime S ;;
  let filename :=
    report_filename output_dir (ExecEvalBenchmarkReport.benchmark_name report)
                    timestamp in
  _ <~ open_w S filename ;;
  json <~ model_dump_json S report ;;
  _ <~ write_text S filename json ;;
  ret filename.

(* ================================================================== *)
(** ** Further notions used to state properties *)

(** The text before the first occurrence of a character. *)
Fixpoint before_first (c : ascii) (s : string) : string :=
  match s with
  | EmptyString => EmptyString
  | String a s' => if Ascii.eqb c a then EmptyString else String a (before_first c s')
  end.

(** The keys of a dict, in insertion order. *)
Definition keys (d : Dict) : list string := map fst d.

(** The distinct strings of a list, in the order of their first
    occurrence. *)
Definition first_seen (l : list string) : list string :=
  fold_left (fun acc k => if str_in k acc then acc else acc ++ [k]) l [].

(** The results of a list that carry a given model string. *)
Definition results_of_model (model : string) (l : list OutputResult)
  : list OutputResult :=
  filter (fun res => (ExeEvalBenchmarkOutputResult.model res =? model)%string) l.

(** A benchmark file with other prompt rows. *)
Definition with_prompts (bf : ExecEvalBenchmarkFile.t) (rows : list PromptRow.t)
  : ExecEvalBenchmarkFile.t :=
  {| ExecEvalBenchmarkFile.benchmark_name := ExecEvalBenchmarkFile.benchmark_name bf;
     ExecEvalBenchmarkFile.purpose := ExecEvalBenchmarkFile.purpose bf;
     ExecEvalBenchmarkFile.base_prompt := ExecEvalBenchmarkFile.base_prompt bf;
     ExecEvalBenchmarkFile.evaluator := ExecEvalBenchmarkFile.evaluator bf;
     ExecEvalBenchmarkFile.prompts := rows |}.

(** Collaborators with another code execution capability. *)
Definition with_execute {W : Type} (C : Collaborators W)
    (execute : string -> M W string) : Collaborators W :=
  {| ollama_bench_prompt := ollama_bench_prompt C;
     anthropic_bench_prompt := anthropic_bench_prompt C;
     deepseek_bench_prompt := deepseek_bench_prompt C;
     openai_bench_prompt := openai_bench_prompt C;
     gemini_bench_prompt := gemini_bench_prompt C;
     parse_markdown_backticks := parse_markdown_backticks C;
     execute_python_code := execute;
     eval_result_compare := eval_result_compare C |}.

(** A storage whose world is the list of files written, newest first,
    and whose clock always reads the same instant. *)
Definition scenario_storage : Storage (list (string * string)) :=
  {| mkdir_exist_ok := fun _ => ret tt;
     now_strftime := ret "20250101_120000";
     open_w := fun path files => (Ok tt, (path, "") :: files);
     model_dump_json := fun r => ret (ExecEvalBenchmarkReport.benchmark_name r);
     write_text := fun path text files => (Ok tt, (path, text) :: files) |}.
(* ================================================================== *)
(** * Properties *)

(** ** Model identifier parser *)

Lemma split_from_nonempty sep k s : PyStr.split_from sep k s <> [].
Proof.
  revert k; induction s as [|c s IH]; intros k; [discriminate|].
  cbn [PyStr.split_from].
  destruct k as [|k]; [|apply IH].
  destruct (prefix sep (String c s)); [discriminate|].
  destruct (PyStr.split_from sep 0 s); discriminate.
Qed.

Lemma prefix_delimiter c s :
  prefix provider_delimiter (String c s) = Ascii.eqb "~"%char c.
Proof.
  unfold provider_delimiter; cbn [prefix].
  destruct (ascii_dec "~" c) as [<-|Hne].
  - rewrite Ascii.eqb_refl. now destruct s.
  - symmetry; now apply Ascii.eqb_neq.
Qed.

Lemma contains_delimiter_cons c s :
  PyStr.contains provider_delimiter (String c s)
  = Ascii.eqb "~"%char c || PyStr.contains provider_delimiter s.
Proof.
  change (PyStr.contains provider_delimiter (String c s))
    with (prefix provider_delimiter (String c s)
          || PyStr.contains provider_delimiter s).
  now rewrite prefix_delimiter.
Qed.

Lemma split_from_delimiter_cons c s :
  PyStr.split_from provider_delimiter 0 (String c s)
  = if Ascii.eqb "~"%char c
    then EmptyString :: PyStr.split_from provider_delimiter 0 s
    else match PyStr.split_from provider_delimiter 0 s with
         | p :: ps => String c p :: ps
         | [] => [String c EmptyString]
         end.
Proof.
  change (PyStr.split_from provider_delimiter 0 (String c s))
    with (if prefix provider_delimiter (String c s)
          then EmptyString :: PyStr.split_from provider_delimiter 0 s
          else match PyStr.split_from provider_delimiter 0 s with
               | p :: ps => String c p :: ps
               | [] => [String c EmptyString]
               end).
  now rewrite prefix_delimiter.
Qed.

Lemma split_delimiter s :
  PyStr.split provider_delimiter s = Ok (PyStr.split_from provider_delimiter 0 s).
Proof. reflexivity. Qed.

(** Joining the parts of a split gives the string back. *)
Lemma join_split_delimiter s :
  PyStr.join provider_delimiter (PyStr.split_from provider_delimiter 0 s) = s.
Proof.
  unfold PyStr.join.
  induction s as [|c s IH]; [reflexivity|].
  rewrite split_from_delimiter_cons.
  destruct (Ascii.eqb "~"%char c) eqn:Hc.
  - apply Ascii.eqb_eq in Hc; subst c.
    destruct (PyStr.split_from provider_delimiter 0 s) as [|p ps] eqn:Hs.
    + now apply split_from_nonempty in Hs.
    + change (String.concat provider_delimiter (EmptyString :: p :: ps))
        with (String "~" (String.concat provider_delimiter (p :: ps))).
      now rewrite IH.
  - destruct (PyStr.split_from provider_delimiter 0 s) as [|p ps] eqn:Hs.
    + now apply split_from_nonempty in Hs.
    + rewrite <- IH. destruct ps; reflexivity.
Qed.

Lemma split_without_delimiter s :
  PyStr.contains provider_delimiter s = false ->
  PyStr.split_from provider_delimiter 0 s = [s].
Proof.
  induction s as [|c s IH]; intros H; [reflexivity|].
  rewrite contains_delimiter_cons in H. apply orb_false_iff in H as [Hc Hs].
  rewrite split_from_delimiter_cons, Hc, (IH Hs). reflexivity.
Qed.

Lemma split_at_first_delimiter p n :
  PyStr.contains provider_delimiter p = false ->
  PyStr.split_from provider_delimiter 0 (p ++ provider_delimiter ++ n)
  = p :: PyStr.split_from provider_delimiter 0 n.
Proof.
  induction p as [|c p IH]; intros H.
  - change (("" ++ provider_delimiter ++ n)%string) with (String "~" n).
    now rewrite split_from_delimiter_cons.
  - rewrite contains_delimiter_cons in H. apply orb_false_iff in H as [Hc Hp].
    change ((String c p ++ provider_delimiter ++ n)%string)
      with (String c (p ++ provider_delimiter ++ n)%string).
    rewrite split_from_delimiter_cons, Hc, (IH Hp). reflexivity.
Qed.

Lemma contains_delimiter_app p n :
  PyStr.contains provider_delimiter (p ++ provider_delimiter ++ n) = true.
Proof.
  induction p as [|c p IH].
  - change (("" ++ provider_delimiter ++ n)%string) with (String "~" n).
    now rewrite contains_delimiter_cons.
  - change ((String c p ++ provider_delimiter ++ n)%string)
      with (String c (p ++ provider_delimiter ++ n)%string).
    rewrite contains_delimiter_cons, IH. apply orb_true_r.
Qed.

Lemma str_in_In x xs : str_in x xs = true <-> In x xs.
Proof.
  unfold str_in. rewrite existsb_exists. split.
  - intros [y [Hy He]]. apply String.eqb_eq in He. now subst.
  - intros H. exists x. split; [assumption|apply String.eqb_refl].
Qed.

Lemma supported_provider_no_delimiter p :
  In p supported_providers -> PyStr.contains provider_delimiter p = false.
Proof.
  unfold supported_providers; simpl.
  intros [<-|[<-|[<-|[<-|[<-|[]]]]]]; reflexivity.
Qed.

Lemma split_single_no_delimiter s p :
  PyStr.split_from provider_delimiter 0 s = [p] ->
  PyStr.contains provider_delimiter s = false.
Proof.
  revert p. induction s as [|c s IH]; intros p; [reflexivity|].
  rewrite split_from_delimiter_cons, contains_delimiter_cons.
  destruct (Ascii.eqb "~"%char c).
  - intros [= _ Hn]. now apply split_from_nonempty in Hn.
  - destruct (PyStr.split_from provider_delimiter 0 s) as [|q qs] eqn:E.
    + now apply split_from_nonempty in E.
    + intros [= _ ->]. simpl. now apply (IH q).
Qed.

(** A parsed model string with a delimiter is put together again by
    provider, delimiter and name, whatever the name holds. *)
Lemma parse_model_string_rejoin model provider name :
  PyStr.contains provider_delimiter model = true ->
  parse_model_string model = Ok (provider, name) ->
  (provider ++ provider_delimiter ++ name)%string = model.
Proof.
  intros Hc. unfold parse_model_string.
  rewrite Hc, split_delimiter. cbn [negb bind].
  pose proof (join_split_delimiter model) as Hj.
  destruct (PyStr.split_from provider_delimiter 0 model) as [|p ps] eqn:Hs.
  - discriminate.
  - destruct (negb (str_in p supported_providers)); [discriminate|].
    intros [= <- <-].
    destruct ps as [|q qs].
    + apply split_single_no_delimiter in Hs. congruence.
    + exact Hj.
Qed.

(** C7.  A model string made of a supported provider, the delimiter and a
    name without delimiter parses into that provider and that name, which
    joined by the delimiter give the string back. *)
Theorem parse_model_string_round_trip (model p n : string) :
  model = (p ++ provider_delimiter ++ n)%string ->
  In p supported_providers ->
  PyStr.contains provider_delimiter n = false ->
  PyStr.contains provider_delimiter model = true /\
  exists provider name,
    parse_model_string model = Ok (provider, name) /\
    provider = p /\ name = n /\
    (provider ++ provider_delimiter ++ name)%string = model.
Proof.
  intros -> Hp Hn.
  split; [apply contains_delimiter_app|].
  exists p, n. repeat split; try reflexivity.
  unfold parse_model_string.
  rewrite contains_delimiter_app, split_delimiter. cbn [negb bind].
  rewrite (split_at_first_delimiter p n (supported_provider_no_delimiter p Hp)).
  rewrite (split_without_delimiter n Hn).
  apply str_in_In in Hp. rewrite Hp. reflexivity.
Qed.

Lemma parse_model_string_round_trip_witness :
  In "openai" supported_providers /\
  PyStr.contains provider_delimiter "gpt-4o" = false /\
  parse_model_string "openai~gpt-4o" = Ok ("openai", "gpt-4o").
Proof.
  assert (Hin : In "openai" supported_providers) by (simpl; tauto).
  split; [exact Hin|]. split; [reflexivity|].
  destruct (parse_model_string_round_trip "openai~gpt-4o" "openai" "gpt-4o"
              eq_refl Hin eq_refl) as [_ [pr [nm [H [-> [-> _]]]]]].
  exact H.
Defined.

(** C9.  A provider returned by [parse_model_string] is one of the five
    tags of the provider chain of [run_benchmark_for_model], so the chain
    never reaches its last branch, the one raising "Unsupported model
    provider": an unknown tag is refused by the parser. *)
Theorem parsed_provider_is_dispatched (model provider name : string) :
  parse_model_string model = Ok (provider, name) ->
  In provider ["ollama"; "anthropic"; "deepseek"; "openai"; "gemini"] /\
  dispatch_branch provider <> UnsupportedModelProvider.
Proof.
  intros H.
  assert (Hin : In provider supported_providers).
  { revert H. unfold parse_model_string.
    destruct (negb (PyStr.contains provider_delimiter model)).
    - intros [= <- _]. simpl; tauto.
    - rewrite split_delimiter. cbn [bind].
      destruct (PyStr.split_from provider_delimiter 0 model) as [|p ps];
        [discriminate|].
      destruct (str_in p supported_providers) eqn:Hs; cbn [negb];
        [|discriminate].
      intros [= <- _]. now apply str_in_In. }
  split; [exact Hin|].
  unfold supported_providers in Hin; simpl in Hin.
  destruct Hin as [<-|[<-|[<-|[<-|[<-|[]]]]]]; discriminate.
Qed.

Lemma parsed_provider_is_dispatched_witness :
  parse_model_string "gemini~gemini-1.5-flash" = Ok ("gemini", "gemini-1.5-flash") /\
  dispatch_branch "gemini" <> UnsupportedModelProvider.
Proof.
  split; [reflexivity|].
  exact (proj2 (parsed_provider_is_dispatched
                  "gemini~gemini-1.5-flash" "gemini" "gemini-1.5-flash" eq_refl)).
Defined.

(** ** Benchmark execution *)

Section RunnerFacts.
Context {W : Type} (C : Collaborators W).

Lemma evaluate_guarded_returns k code expected w :
  exists p w', evaluate_guarded C k code expected w = (Ok p, w').
Proof.
  unfold evaluate_guarded, try_exceptM.
  destruct (evaluate C k code expected w) as [[p|e] w']; unfold ret; eauto.
Qed.

Lemma evaluate_guarded_raise k code expected w e w' :
  evaluate C k code expected w = (Raise e, w') ->
  evaluate_guarded C k code expected w = (Ok (str_exception e, false), w').
Proof.
  intros H. unfold evaluate_guarded, try_exceptM. now rewrite H.
Qed.

Lemma evaluate_unsupported text code expected w :
  evaluate C (other_evaluator text) code expected w
  = (Raise (ValueError ("Unsupported evaluator: " ++ text)), w).
Proof. reflexivity. Qed.

(** One iteration, once the response, the extracted code and the outcome
    of the guarded evaluation are known. *)
Lemma run_prompt_steps provider name model bf i row w resp w1 code w2 er c w3 :
  get_bench_response C provider (prompt_of bf row) name w = (Ok resp, w1) ->
  parse_markdown_backticks C (BenchPromptResponse.response resp) w1 = (Ok code, w2) ->
  evaluate_guarded C (ExecEvalBenchmarkFile.evaluator bf) code (expected_of row) w2
    = (Ok (er, c), w3) ->
  run_prompt C provider name model bf i row w
  = (Ok {| ExeEvalBenchmarkOutputResult.input_prompt := prompt_of bf row;
           ExeEvalBenchmarkOutputResult.prompt_response := resp;
           ExeEvalBenchmarkOutputResult.execution_result := er;
           ExeEvalBenchmarkOutputResult.expected_result := expected_of row;
           ExeEvalBenchmarkOutputResult.model := model;
           ExeEvalBenchmarkOutputResult.correct := c;
           ExeEvalBenchmarkOutputResult.index := i |}, w3).
Proof.
  intros Hd Hx He. unfold run_prompt, bindM.
  fold (prompt_of bf row). rewrite Hd, Hx.
  fold (expected_of row). rewrite He. reflexivity.
Qed.

Lemma run_prompt_dispatch_raises provider name model bf i row w e w1 :
  get_bench_response C provider (prompt_of bf row) name w = (Raise e, w1) ->
  run_prompt C provider name model bf i row w = (Raise e, w1).
Proof.
  intros Hd. unfold run_prompt, bindM. fold (prompt_of bf row). now rewrite Hd.
Qed.

Lemma run_prompt_extraction_raises provider name model bf i row w resp w1 e w2 :
  get_bench_response C provider (prompt_of bf row) name w = (Ok resp, w1) ->
  parse_markdown_backticks C (BenchPromptResponse.response resp) w1 = (Raise e, w2) ->
  run_prompt C provider name model bf i row w = (Raise e, w2).
Proof.
  intros Hd Hx. unfold run_prompt, bindM. fold (prompt_of bf row).
  now rewrite Hd, Hx.
Qed.

Lemma run_prompts_cons_ok provider name model bf i row rest results w r w' :
  run_prompt C provider name model bf i row w = (Ok r, w') ->
  run_prompts C provider name model bf i (row :: rest) results w
  = run_prompts C provider name model bf (i + 1) rest (results ++ [r]) w'.
Proof.
  intros H. cbn [run_prompts]. unfold bindM. now rewrite H.
Qed.

Lemma run_prompts_cons_raise provider name model bf i row rest results w e w' :
  run_prompt C provider name model bf i row w = (Raise e, w') ->
  run_prompts C provider name model bf i (row :: rest) results w = (Raise e, w').
Proof.
  intros H. cbn [run_prompts]. unfold bindM. now rewrite H.
Qed.

(** The ollama branch always yields a response. *)
Lemma ollama_response_returns prompt name w :
  exists resp w', get_bench_response C "ollama" prompt name w = (Ok resp, w').
Proof.
  unfold get_bench_response. cbn [dispatch_branch String.eqb Ascii.eqb Bool.eqb].
  unfold try_exceptM.
  destruct (ollama_bench_prompt C prompt name w) as [[resp|e] w']; unfold ret; eauto.
Qed.

Lemma remote_response provider call prompt name :
  remote_bench_prompt C provider = Some call ->
  get_bench_response C provider prompt name = call prompt name.
Proof.
  unfold remote_bench_prompt, get_bench_response.
  destruct (dispatch_branch provider); intros [= <-] || discriminate; reflexivity.
Qed.

Section Loop.
Variables (provider name model : string) (bf : ExecEvalBenchmarkFile.t).
Hypothesis response_returns : forall prompt w,
  exists resp w', get_bench_response C provider prompt name w = (Ok resp, w').
Hypothesis extraction_returns : forall text w,
  exists code w', parse_markdown_backticks C text w = (Ok code, w').

(** Under the two hypotheses an iteration appends a result, which is an
    error record when the evaluator kind is not one of the three. *)
Lemma run_prompt_returns i row w :
  exists r w',
    run_prompt C provider name model bf i row w = (Ok r, w') /\
    ExeEvalBenchmarkOutputResult.index r = i /\
    result_of_row bf model row r /\
    (forall text, ExecEvalBenchmarkFile.evaluator bf = other_evaluator text ->
       ExeEvalBenchmarkOutputResult.correct r = false /\
       ExeEvalBenchmarkOutputResult.execution_result r
       = ("Unsupported evaluator: " ++ text)%string).
Proof.
  destruct (response_returns (prompt_of bf row) w) as [resp [w1 Hd]].
  destruct (extraction_returns (BenchPromptResponse.response resp) w1)
    as [code [w2 Hx]].
  destruct (evaluate_guarded_returns (ExecEvalBenchmarkFile.evaluator bf)
              code (expected_of row) w2) as [[er c] [w3 He]].
  eexists; exists w3. split; [exact (run_prompt_steps _ _ _ _ _ _ _ _ _ _ _ _ _ _ Hd Hx He)|].
  cbn. split; [reflexivity|]. split; [repeat split|].
  intros text Hk. rewrite Hk in He.
  rewrite (evaluate_guarded_raise _ _ _ _ _ _ (evaluate_unsupported text code _ w2)) in He.
  now inversion He.
Qed.

Lemma run_prompts_returns rows : forall i results w,
  exists rs w',
    run_prompts C provider name model bf i rows results w = (Ok (results ++ rs), w') /\
    map ExeEvalBenchmarkOutputResult.index rs
    = map (fun j => (i + Z.of_nat j)%Z) (seq 0 (List.length rows)) /\
    Forall2 (result_of_row bf model) rows rs /\
    (forall text, ExecEvalBenchmarkFile.evaluator bf = other_evaluator text ->
       Forall (fun r => ExeEvalBenchmarkOutputResult.correct r = false /\
                        ExeEvalBenchmarkOutputResult.execution_result r
                        = ("Unsupported evaluator: " ++ text)%string) rs).
Proof.
  induction rows as [|row rest IH]; intros i results w.
  - exists [], w. cbn. rewrite app_nil_r. repeat split; constructor.
  - destruct (run_prompt_returns i row w) as [r [w1 [Hr [Hi [Hrow Hk]]]]].
    destruct (IH (i + 1)%Z (results ++ [r]) w1) as [rs [w2 [Hrs [His [Hrows Hks]]]]].
    exists (r :: rs), w2.
    rewrite (run_prompts_cons_ok _ _ _ _ _ _ _ _ _ _ _ Hr), Hrs, <- app_assoc.
    split; [reflexivity|]. split; [|split].
    + cbn [map List.length seq]. rewrite Hi, His, <- seq_shift, map_map.
      f_equal; [lia|]. apply map_ext. intros j. lia.
    + now constructor.
    + intros text Ht. constructor; [exact (Hk text Ht)|exact (Hks text Ht)].
Qed.

End Loop.

Lemma positions_from_one n :
  map (fun j => (1 + Z.of_nat j)%Z) (seq 0 n) = positions n.
Proof.
  unfold positions. rewrite <- seq_shift, map_map.
  apply map_ext. intros j. lia.
Qed.

(** The hypothesis on the provider, as the run needs it. *)
Lemma provider_returns provider name :
  (provider = "ollama" \/
   exists call, remote_bench_prompt C provider = Some call /\
                forall prompt w, exists resp w', call prompt name w = (Ok resp, w')) ->
  forall prompt w,
    exists resp w', get_bench_response C provider prompt name w = (Ok resp, w').
Proof.
  intros [->|[call [Hc Hret]]] prompt w.
  - apply ollama_response_returns.
  - rewrite (remote_response _ _ _ _ Hc). apply Hret.
Qed.

Lemma run_benchmark_unfold model bf provider name w :
  parse_model_string model = Ok (provider, name) ->
  run_benchmark_for_model C model bf w
  = run_prompts C provider name model bf 1 (ExecEvalBenchmarkFile.prompts bf) [] w.
Proof.
  intros H. unfold run_benchmark_for_model, bindM, lift. now rewrite H.
Qed.

End RunnerFacts.

(** C4, as the code has it.  When the model string parses, the calls of
    its provider return normally (or the provider is ollama) and the
    extraction call, which comes before the [try], returns normally, a
    run over N prompt rows returns exactly N results, with indices 1..N
    in order and each built from the row at its position, whatever the
    execution and the comparison do. *)
Theorem run_benchmark_one_result_per_prompt {W : Type} (C : Collaborators W)
    (model provider name : string) (bf : ExecEvalBenchmarkFile.t) :
  parse_model_string model = Ok (provider, name) ->
  (provider = "ollama" \/
   exists call, remote_bench_prompt C provider = Some call /\
                forall prompt w, exists resp w', call prompt name w = (Ok resp, w')) ->
  (forall text w, exists code w', parse_markdown_backticks C text w = (Ok code, w')) ->
  forall w, exists rs w',
    run_benchmark_for_model C model bf w = (Ok rs, w') /\
    List.length rs = List.length (ExecEvalBenchmarkFile.prompts bf) /\
    map ExeEvalBenchmarkOutputResult.index rs
    = positions (List.length (ExecEvalBenchmarkFile.prompts bf)) /\
    Forall2 (result_of_row bf model) (ExecEvalBenchmarkFile.prompts bf) rs.
Proof.
  intros Hparse Hprov Hext w.
  pose proof (provider_returns C provider name Hprov) as Hresp.
  destruct (run_prompts_returns C provider name model bf Hresp Hext
              (ExecEvalBenchmarkFile.prompts bf) 1%Z [] w)
    as [rs [w' [Hrun [Hidx [Hrows _]]]]].
  exists rs, w'. rewrite (run_benchmark_unfold C _ _ _ _ _ Hparse).
  split; [exact Hrun|]. split; [|split].
  - symmetry. exact (Forall2_length Hrows).
  - rewrite Hidx. apply positions_from_one.
  - exact Hrows.
Qed.

Lemma run_benchmark_one_result_per_prompt_witness :
  exists rs w',
    run_benchmark_for_model Scenario.collaborators_failing_execution "llama3"
      (Scenario.benchmark execute_python_code_with_num_output) 0%nat = (Ok rs, w') /\
    List.length rs = 2%nat /\
    map ExeEvalBenchmarkOutputResult.index rs = [1%Z; 2%Z].
Proof.
  destruct (run_benchmark_one_result_per_prompt
              Scenario.collaborators_failing_execution "llama3" "ollama" "llama3"
              (Scenario.benchmark execute_python_code_with_num_output)
              eq_refl (or_introl eq_refl)
              (fun text w => ex_intro _ (PyStr.strip text) (ex_intro _ w eq_refl))
              0%nat)
    as [rs [w' [Hrun [Hlen [Hidx _]]]]].
  exists rs, w'. split; [exact Hrun|]. split; [exact Hlen|exact Hidx].
Defined.

(** C4 as stated fails: with the ollama provider and an extraction that
    raises, the run of two prompt rows returns no list of results. *)
Lemma run_benchmark_aborted_by_extraction :
  parse_model_string "llama3" = Ok ("ollama", "llama3") /\
  List.length (ExecEvalBenchmarkFile.prompts
                 (Scenario.benchmark raw_string_evaluator)) = 2%nat /\
  run_benchmark_for_model Scenario.collaborators_failing_extractor "llama3"
    (Scenario.benchmark raw_string_evaluator) 0%nat
  = (Raise (OtherException "TypeError" "expected string"), 1%nat) /\
  ~ (exists rs w',
       run_benchmark_for_model Scenario.collaborators_failing_extractor "llama3"
         (Scenario.benchmark raw_string_evaluator) 0%nat = (Ok rs, w') /\
       List.length rs = 2%nat).
Proof.
  split; [reflexivity|]. split; [reflexivity|]. split; [reflexivity|].
  intros [rs [w' [H _]]]. discriminate H.
Qed.

(** C5, as the code has it.  An exception raised inside the [try] of a
    prompt, that is while executing the code, comparing the outcome or
    rejecting the evaluator kind, is caught there: the result appended
    has [correct = false] and the error text as [execution_result], and
    the loop goes on with the next prompt. *)
Theorem evaluation_error_is_recorded {W : Type} (C : Collaborators W)
    (provider name model : string) (bf : ExecEvalBenchmarkFile.t) (i : Z)
    (row : PromptRow.t) (w w1 w2 w3 : W) (resp : BenchPromptResponse.t)
    (code : string) (e : PyException) :
  get_bench_response C provider (prompt_of bf row) name w = (Ok resp, w1) ->
  parse_markdown_backticks C (BenchPromptResponse.response resp) w1 = (Ok code, w2) ->
  evaluate C (ExecEvalBenchmarkFile.evaluator bf) code (expected_of row) w2
    = (Raise e, w3) ->
  exists r,
    run_prompt C provider name model bf i row w = (Ok r, w3) /\
    ExeEvalBenchmarkOutputResult.correct r = false /\
    ExeEvalBenchmarkOutputResult.execution_result r = str_exception e /\
    ExeEvalBenchmarkOutputResult.index r = i /\
    forall rest results,
      run_prompts C provider name model bf i (row :: rest) results w
      = run_prompts C provider name model bf (i + 1) rest (results ++ [r]) w3.
Proof.
  intros Hd Hx He.
  pose proof (run_prompt_steps C provider name model bf i row _ _ _ _ _ _ _ _
                Hd Hx (evaluate_guarded_raise C _ _ _ _ _ _ He)) as Hr.
  eexists. split; [exact Hr|]. cbn. repeat split.
  intros rest results. exact (run_prompts_cons_ok C _ _ _ _ _ _ _ _ _ _ _ Hr).
Qed.

Lemma evaluation_error_is_recorded_witness :
  exists r,
    run_prompt Scenario.collaborators_failing_execution "ollama" "llama3" "llama3"
      (Scenario.benchmark execute_python_code_with_num_output) 1
      (hd {| PromptRow.dynamic_variables := None; PromptRow.expectation := VInt 0 |}
          Scenario.rows) 0%nat = (Ok r, 1%nat) /\
    ExeEvalBenchmarkOutputResult.correct r = false /\
    ExeEvalBenchmarkOutputResult.execution_result r = "invalid syntax".
Proof.
  destruct (evaluation_error_is_recorded
              Scenario.collaborators_failing_execution "ollama" "llama3" "llama3"
              (Scenario.benchmark execute_python_code_with_num_output) 1
              (hd {| PromptRow.dynamic_variables := None;
                     PromptRow.expectation := VInt 0 |} Scenario.rows)
              0%nat 1%nat 1%nat 1%nat _ _ _ eq_refl eq_refl eq_refl)
    as [r [Hr [Hc [He _]]]].
  exists r. split; [exact Hr|]. split; [exact Hc|exact He].
Defined.

(** C5 as stated fails for the extraction, which is called before the
    [try]: when it raises at the first of two prompts, no result is
    appended, the exception leaves the loop, and the second prompt is
    never sent (one completion call was made). *)
Lemma extraction_error_is_not_caught :
  parse_markdown_backticks Scenario.collaborators_failing_extractor "print(4)" 1%nat
  = (Raise (OtherException "TypeError" "expected string"), 1%nat) /\
  run_prompts Scenario.collaborators_failing_extractor "ollama" "llama3" "llama3"
    (Scenario.benchmark raw_string_evaluator) 1 Scenario.rows [] 0%nat
  = (Raise (OtherException "TypeError" "expected string"), 1%nat) /\
  ~ (exists r w',
       run_prompt Scenario.collaborators_failing_extractor "ollama" "llama3" "llama3"
         (Scenario.benchmark raw_string_evaluator) 1
         (hd {| PromptRow.dynamic_variables := None; PromptRow.expectation := VInt 0 |}
             Scenario.rows) 0%nat = (Ok r, w') /\
       ExeEvalBenchmarkOutputResult.correct r = false).
Proof.
  split; [reflexivity|]. split; [reflexivity|].
  intros [r [w' [H _]]]. discriminate H.
Qed.

(** C2, as the code has it.  With an evaluator kind that is none of the
    three supported ones, the [ValueError] is raised inside the [try] and
    caught by its handler: under the conditions of C4 the run returns one
    result per prompt, each with [correct = false] and the text
    "Unsupported evaluator: <kind>" as [execution_result]. *)
Theorem unsupported_evaluator_is_recorded {W : Type} (C : Collaborators W)
    (model provider name text : string) (bf : ExecEvalBenchmarkFile.t) :
  ExecEvalBenchmarkFile.evaluator bf = other_evaluator text ->
  parse_model_string model = Ok (provider, name) ->
  (provider = "ollama" \/
   exists call, remote_bench_prompt C provider = Some call /\
                forall prompt w, exists resp w', call prompt name w = (Ok resp, w')) ->
  (forall s w, exists code w', parse_markdown_backticks C s w = (Ok code, w')) ->
  forall w, exists rs w',
    run_benchmark_for_model C model bf w = (Ok rs, w') /\
    List.length rs = List.length (ExecEvalBenchmarkFile.prompts bf) /\
    Forall (fun r => ExeEvalBenchmarkOutputResult.correct r = false /\
                     ExeEvalBenchmarkOutputResult.execution_result r
                     = ("Unsupported evaluator: " ++ text)%string) rs.
Proof.
  intros Hk Hparse Hprov Hext w.
  pose proof (provider_returns C provider name Hprov) as Hresp.
  destruct (run_prompts_returns C provider name model bf Hresp Hext
              (ExecEvalBenchmarkFile.prompts bf) 1%Z [] w)
    as [rs [w' [Hrun [_ [Hrows Hall]]]]].
  exists rs, w'. rewrite (run_benchmark_unfold C _ _ _ _ _ Hparse).
  split; [exact Hrun|]. split.
  - symmetry. exact (Forall2_length Hrows).
  - exact (Hall text Hk).
Qed.

Lemma unsupported_evaluator_is_recorded_witness :
  exists rs w',
    run_benchmark_for_model Scenario.collaborators "openai~gpt-4o"
      (Scenario.benchmark (other_evaluator "json_validator")) 0%nat = (Ok rs, w') /\
    List.length rs = 2%nat /\
    Forall (fun r => ExeEvalBenchmarkOutputResult.correct r = false /\
                     ExeEvalBenchmarkOutputResult.execution_result r
                     = "Unsupported evaluator: json_validator") rs.
Proof.
  exact (unsupported_evaluator_is_recorded
           Scenario.collaborators "openai~gpt-4o" "openai" "gpt-4o" "json_validator"
           (Scenario.benchmark (other_evaluator "json_validator"))
           eq_refl eq_refl
           (or_intror
              (ex_intro _ (Scenario.completion "print(4)")
                 (conj eq_refl
                    (fun prompt w => ex_intro _ _ (ex_intro _ (S w) eq_refl)))))
           (fun s w => ex_intro _ (PyStr.strip s) (ex_intro _ w eq_refl))
           0%nat).
Defined.

(** C2 as stated fails: with an evaluator kind outside the three, the run
    does not fail; it returns the two results, both marked incorrect. *)
Lemma unsupported_evaluator_does_not_abort :
  (exists rs,
     run_benchmark_for_model Scenario.collaborators "llama3"
       (Scenario.benchmark (other_evaluator "json_validator")) 0%nat = (Ok rs, 2%nat) /\
     map ExeEvalBenchmarkOutputResult.correct rs = [false; false] /\
     map ExeEvalBenchmarkOutputResult.execution_result rs
     = ["Unsupported evaluator: json_validator";
        "Unsupported evaluator: json_validator"]) /\
  ~ (exists e w',
       run_benchmark_for_model Scenario.collaborators "llama3"
         (Scenario.benchmark (other_evaluator "json_validator")) 0%nat = (Raise e, w')).
Proof.
  split.
  - eexists. split; [reflexivity|]. split; reflexivity.
  - intros [e [w' H]]. discriminate H.
Qed.

(** C6.  A failure of the ollama completion call is caught and turned
    into a response with [errored = true], the three timing fields zero
    and the error text in the body, and the prompt goes on to extraction;
    a failure of the completion call of any other provider is not caught:
    it leaves the provider chain, the loop, and the run. *)
Theorem completion_failure_by_provider {W : Type} (C : Collaborators W)
    (prompt name : string) (e : PyException) (w w' : W) :
  (ollama_bench_prompt C prompt name w = (Raise e, w') ->
   exists resp,
     get_bench_response C "ollama" prompt name w = (Ok resp, w') /\
     BenchPromptResponse.errored resp = true /\
     BenchPromptResponse.tokens_per_second resp == 0 /\
     BenchPromptResponse.total_duration_ms resp == 0 /\
     BenchPromptResponse.load_duration_ms resp == 0 /\
     BenchPromptResponse.response resp = ("Error: " ++ str_exception e)%string /\
     forall model bf i row rest results code w2,
       prompt_of bf row = prompt ->
       parse_markdown_backticks C (BenchPromptResponse.response resp) w' = (Ok code, w2) ->
       exists r w3,
         ExeEvalBenchmarkOutputResult.prompt_response r = resp /\
         run_prompts C "ollama" name model bf i (row :: rest) results w
         = run_prompts C "ollama" name model bf (i + 1) rest (results ++ [r]) w3)
  /\
  (forall provider call,
     remote_bench_prompt C provider = Some call ->
     call prompt name w = (Raise e, w') ->
     get_bench_response C provider prompt name w = (Raise e, w') /\
     (forall model bf i row rest results,
        prompt_of bf row = prompt ->
        run_prompts C provider name model bf i (row :: rest) results w = (Raise e, w')) /\
     (forall model bf row rest,
        parse_model_string model = Ok (provider, name) ->
        ExecEvalBenchmarkFile.prompts bf = row :: rest ->
        prompt_of bf row = prompt ->
        run_benchmark_for_model C model bf w = (Raise e, w'))).
Proof.
  split.
  - intros Hfail.
    assert (Hd : get_bench_response C "ollama" prompt name w
                 = (Ok (ollama_error_response e), w')).
    { unfold get_bench_response.
      cbn [dispatch_branch String.eqb Ascii.eqb Bool.eqb].
      unfold try_exceptM. now rewrite Hfail. }
    exists (ollama_error_response e).
    split; [exact Hd|]. cbn.
    do 5 (split; [reflexivity|]).
    intros model bf i row rest results code w2 Hp Hx. subst prompt.
    destruct (evaluate_guarded_returns C (ExecEvalBenchmarkFile.evaluator bf)
                code (expected_of row) w2) as [[er c] [w3 He]].
    pose proof (run_prompt_steps C "ollama" name model bf i row _ _ _ _ _ _ _ _
                  Hd Hx He) as Hr.
    eexists; exists w3. split; [|exact (run_prompts_cons_ok C _ _ _ _ _ _ _ _ _ _ _ Hr)].
    reflexivity.
  - intros provider call Hcall Hfail.
    assert (Hd : get_bench_response C provider prompt name w = (Raise e, w')).
    { now rewrite (remote_response C _ _ _ _ Hcall). }
    split; [exact Hd|]. split.
    + intros model bf i row rest results Hp. subst prompt.
      apply run_prompts_cons_raise. now apply run_prompt_dispatch_raises.
    + intros model bf row rest Hparse Hrows Hp. subst prompt.
      rewrite (run_benchmark_unfold C _ _ _ _ _ Hparse), Hrows.
      apply run_prompts_cons_raise. now apply run_prompt_dispatch_raises.
Qed.

Lemma completion_failure_by_provider_witness :
  (exists resp,
     get_bench_response Scenario.collaborators_failing_provider
       "ollama" "print 2 + 2" "llama3" 0%nat = (Ok resp, 1%nat) /\
     BenchPromptResponse.errored resp = true /\
     BenchPromptResponse.response resp = "Error: server down") /\
  run_benchmark_for_model Scenario.collaborators_failing_provider "deepseek~coder"
    (Scenario.benchmark raw_string_evaluator) 0%nat
  = (Raise (OtherException "ConnectionError" "server down"), 1%nat).
Proof.
  pose proof (completion_failure_by_provider
                Scenario.collaborators_failing_provider "print 2 + 2" "llama3"
                (OtherException "ConnectionError" "server down") 0%nat 1%nat)
    as [Hlocal _].
  pose proof (completion_failure_by_provider
                Scenario.collaborators_failing_provider "print 2 + 2" "coder"
                (OtherException "ConnectionError" "server down") 0%nat 1%nat)
    as [_ Hremote].
  split.
  - destruct (Hlocal eq_refl) as [resp [Hd [He [_ [_ [_ [Hb _]]]]]]].
    exists resp. split; [exact Hd|]. split; [exact He|exact Hb].
  - destruct (Hremote "deepseek" Scenario.failing_completion eq_refl eq_refl)
      as [_ [_ Hrun]].
    exact (Hrun "deepseek~coder" (Scenario.benchmark raw_string_evaluator)
             _ _ eq_refl eq_refl eq_refl).
Defined.

(** C10.  The templating loop substitutes one key after the other, each
    over the whole string the previous keys left; so a marker brought in
    by the value of an earlier key is replaced by a later key, and the
    rendered prompt is not what one simultaneous pass over the template
    gives. *)
Theorem templating_is_sequential :
  (forall base key value rest,
     render_prompt base (Some ((key, value) :: rest))
     = render_prompt (PyStr.replace (marker key) (py_str value) base) (Some rest)) /\
  (exists template key1 value1 key2 value2,
     PyStr.contains (marker key2) template = false /\
     PyStr.contains (marker key2) (py_str value1) = true /\
     PyStr.contains (marker key2)
       (render_prompt template (Some [(key1, value1)])) = true /\
     PyStr.contains (marker key2)
       (render_prompt template (Some [(key1, value1); (key2, value2)])) = false /\
     render_prompt template (Some [(key1, value1); (key2, value2)])
     <> substitute_simultaneously template [(key1, value1); (key2, value2)]).
Proof.
  split.
  - intros base key value rest. unfold render_prompt.
    cbn [dict_truthy items fold_left fst snd].
    destruct rest; reflexivity.
  - exists Scenario.nested_template, "a", (VStr "{{b}}"), "b", (VStr "hello").
    repeat split; try reflexivity. vm_compute. discriminate.
Qed.

(** ** Report generation *)

Lemma fold_add_from (l : list Z) (a : Z) :
  fold_left Z.add l a = (a + fold_left Z.add l 0)%Z.
Proof.
  revert a. induction l as [|x l IH]; intros a; cbn [fold_left].
  - lia.
  - rewrite (IH (a + x)%Z), (IH (0 + x)%Z). lia.
Qed.

Lemma sumZ_cons x l : sumZ (x :: l) = (x + sumZ l)%Z.
Proof. unfold sumZ. cbn [fold_left]. rewrite fold_add_from. lia. Qed.

Lemma sumZ_app l1 l2 : sumZ (l1 ++ l2) = (sumZ l1 + sumZ l2)%Z.
Proof.
  induction l1 as [|x l1 IH]; [reflexivity|].
  cbn [app]. rewrite !sumZ_cons, IH. lia.
Qed.

Lemma count_correct_snoc l res :
  count_correct (l ++ [res])
  = (count_correct l + one_if (ExeEvalBenchmarkOutputResult.correct res))%Z.
Proof.
  unfold count_correct. rewrite filter_app, map_app, sumZ_app. f_equal.
  cbn [filter]. now destruct (ExeEvalBenchmarkOutputResult.correct res).
Qed.

Lemma count_correct_cons res l :
  count_correct (res :: l)
  = (one_if (ExeEvalBenchmarkOutputResult.correct res) + count_correct l)%Z.
Proof.
  unfold count_correct. cbn [filter].
  destruct (ExeEvalBenchmarkOutputResult.correct res); cbn [map one_if].
  - now rewrite sumZ_cons.
  - lia.
Qed.

Lemma len_snoc {A : Type} (l : list A) (x : A) : len (l ++ [x]) = (len l + 1)%Z.
Proof. unfold len. rewrite length_app. cbn [List.length]. lia. Qed.

Lemma len_positive {A : Type} (l : list A) : l <> [] -> (0 < len l)%Z.
Proof. destruct l; [congruence|]. intros _. unfold len. cbn [List.length]. lia. Qed.

Lemma truediv_defined a z : z <> 0%Z -> truediv a (inject_Z z) = Ok (a / inject_Z z).
Proof.
  intros Hz. unfold truediv.
  destruct (Qeq_bool (inject_Z z) 0) eqn:E; [|reflexivity].
  apply Qeq_bool_eq in E. unfold Qeq in E. cbn in E. lia.
Qed.

Lemma truediv_by_zero a :
  truediv a (inject_Z 0) = Raise (ZeroDivisionError "division by zero").
Proof. reflexivity. Qed.

(** *** Grouping *)

Lemma group_step_upsert k res (d : Dict) :
  (let d1 := if negb (dict_contains k d) then dict_setitem k [] d else d in
   group <- dict_getitem k d1 ;; Ok (dict_setitem k (group ++ [res]) d1))
  = Ok (upsert k res d).
Proof.
  induction d as [|[k' v] d IH].
  - cbn. rewrite !String.eqb_refl. cbn. now rewrite ?String.eqb_refl.
  - cbn [dict_contains upsert].
    destruct (k =? k')%string eqn:E.
    + cbn. rewrite ?E. cbn. now rewrite ?E.
    + cbn [orb]. cbv zeta in IH |- *.
      destruct (negb (dict_contains k d)).
      * cbn [dict_setitem dict_getitem]. rewrite E. cbn [dict_getitem].
        rewrite E.
        destruct (dict_getitem k (dict_setitem k [] d)) as [g|e];
          cbn [bind] in IH |- *; [|discriminate].
        cbn [dict_setitem]. rewrite E. now inversion IH.
      * cbn [dict_getitem]. rewrite E.
        destruct (dict_getitem k d) as [g|e]; cbn [bind] in IH |- *; [|discriminate].
        cbn [dict_setitem]. rewrite E. now inversion IH.
Qed.

Lemma group_result_upsert f res :
  group_result f res
  = Ok (set_model_results
          (upsert (ExeEvalBenchmarkOutputResult.model res) res (model_results f)) f).
Proof.
  pose proof (group_step_upsert (ExeEvalBenchmarkOutputResult.model res) res
                (model_results f)) as H.
  unfold group_result. cbv zeta in H |- *.
  destruct (negb (dict_contains (ExeEvalBenchmarkOutputResult.model res)
                    (model_results f))).
  - cbn [model_results set_model_results] in H |- *.
    destruct (dict_getitem _ _) as [g|e]; cbn [bind] in H |- *; [|discriminate].
    inversion H as [H']. now rewrite H'.
  - destruct (dict_getitem _ _) as [g|e]; cbn [bind] in H |- *; [|discriminate].
    inversion H as [H']. now rewrite H'.
Qed.

Lemma group_results_groups l : forall f,
  group_results l f = Ok (set_model_results (groups_from l (model_results f)) f).
Proof.
  induction l as [|res l IH]; intros f.
  - destruct f; reflexivity.
  - cbn [group_results]. rewrite group_result_upsert. cbn [bind].
    rewrite IH. reflexivity.
Qed.

Lemma upsert_total_len k res d : total_len (upsert k res d) = (total_len d + 1)%Z.
Proof.
  unfold total_len. induction d as [|[k' v] d IH]; [reflexivity|].
  cbn [upsert]. destruct (k =? k')%string; cbn [map snd]; rewrite !sumZ_cons.
  - rewrite len_snoc. lia.
  - rewrite IH. lia.
Qed.

Lemma upsert_total_correct k res d :
  total_correct (upsert k res d)
  = (total_correct d + one_if (ExeEvalBenchmarkOutputResult.correct res))%Z.
Proof.
  unfold total_correct. induction d as [|[k' v] d IH].
  - cbn [upsert map snd]. rewrite sumZ_cons.
    pose proof (count_correct_snoc [] res) as H. cbn [app] in H. rewrite H.
    change (count_correct []) with 0%Z. change (sumZ []) with 0%Z. lia.
  - cbn [upsert]. destruct (k =? k')%string; cbn [map snd]; rewrite !sumZ_cons.
    + rewrite count_correct_snoc. lia.
    + rewrite IH. lia.
Qed.

Lemma upsert_nonempty_groups k res d :
  Forall (fun it => snd it <> []) d -> Forall (fun it => snd it <> []) (upsert k res d).
Proof.
  induction 1 as [|[k' v] d Hv Hd IH]; cbn [upsert].
  - constructor; [discriminate|constructor].
  - destruct (k =? k')%string; constructor; try assumption.
    cbn [snd]. destruct v; discriminate.
Qed.

Lemma upsert_not_nil k res d : upsert k res d <> [].
Proof. destruct d as [|[k' v] d]; cbn [upsert]; [|destruct (k =? k')%string]; discriminate. Qed.

Lemma groups_from_total_len l : forall d,
  total_len (groups_from l d) = (total_len d + len l)%Z.
Proof.
  unfold groups_from. induction l as [|res l IH]; intros d; cbn [fold_left].
  - unfold len. cbn. lia.
  - rewrite IH, upsert_total_len. unfold len. cbn [List.length]. lia.
Qed.

Lemma groups_from_total_correct l : forall d,
  total_correct (groups_from l d) = (total_correct d + count_correct l)%Z.
Proof.
  unfold groups_from. induction l as [|res l IH]; intros d; cbn [fold_left].
  - unfold count_correct. cbn. lia.
  - rewrite IH, upsert_total_correct, count_correct_cons. lia.
Qed.

Lemma groups_from_nonempty_groups l : forall d,
  Forall (fun it => snd it <> []) d ->
  Forall (fun it => snd it <> []) (groups_from l d).
Proof.
  unfold groups_from. induction l as [|res l IH]; intros d Hd; cbn [fold_left].
  - exact Hd.
  - apply IH. now apply upsert_nonempty_groups.
Qed.

Lemma groups_from_not_nil l : forall d, d <> [] -> groups_from l d <> [].
Proof.
  unfold groups_from. induction l as [|res l IH]; intros d Hd; cbn [fold_left].
  - exact Hd.
  - apply IH. apply upsert_not_nil.
Qed.

Lemma groups_of_results_not_nil l : l <> [] -> groups_from l [] <> [].
Proof.
  destruct l as [|res l]; [congruence|]. intros _.
  unfold groups_from. cbn [fold_left]. apply groups_from_not_nil, upsert_not_nil.
Qed.

(** *** Per-model reports *)

Lemma report_model_defined f item :
  snd item <> [] ->
  exists f',
    report_model f item = Ok f' /\
    model_reports f' = model_reports f ++ [model_report_of item] /\
    model_results f' = model_results f.
Proof.
  intros Hne. pose proof (len_positive _ Hne) as Hpos.
  assert (Hz : len (snd item) <> 0%Z) by lia.
  unfold report_model. cbv zeta.
  rewrite !(truediv_defined _ _ Hz). cbn [bind].
  eexists. split; [reflexivity|]. split; reflexivity.
Qed.

Lemma report_models_defined l : forall f,
  Forall (fun it => snd it <> []) l ->
  exists f',
    report_models l f = Ok f' /\
    model_reports f' = model_reports f ++ map model_report_of l /\
    model_results f' = model_results f.
Proof.
  induction l as [|item l IH]; intros f Hl.
  - exists f. cbn. now rewrite app_nil_r.
  - inversion Hl as [|? ? Hitem Hrest]; subst.
    destruct (report_model_defined f item Hitem) as [f1 [H1 [Hr1 Hg1]]].
    destruct (IH f1 Hrest) as [f2 [H2 [Hr2 Hg2]]].
    exists f2. cbn [report_models]. rewrite H1. cbn [bind].
    split; [exact H2|]. split.
    + rewrite Hr2, Hr1, <- app_assoc. reflexivity.
    + congruence.
Qed.

(** *** Overall statistics *)

Lemma overall_statistics_tables f1 f2 :
  same_tables f1 f2 -> overall_statistics f1 = overall_statistics f2.
Proof.
  destruct f1, f2. unfold same_tables. cbn [model_reports model_results].
  intros [-> ->]. reflexivity.
Qed.

(** A pass depends on the results alone, not on what the frame holds. *)
Lemma aggregation_pass_aggregate cr f : aggregation_pass cr f = aggregate cr.
Proof.
  unfold aggregation_pass, aggregate. cbv zeta.
  rewrite group_results_groups. cbn [bind model_results set_model_results].
  set (G := groups_from (ExecEvalBenchmarkCompleteResult.results cr) []).
  destruct (report_models_defined G
              (set_model_results G (set_model_results [] (set_model_reports [] f))))
    as [f' [Hrun [Hrep Hgrp]]].
  { apply groups_from_nonempty_groups. constructor. }
  rewrite Hrun. cbn [bind]. apply overall_statistics_tables.
  split.
  - rewrite Hrep. reflexivity.
  - rewrite Hgrp. reflexivity.
Qed.

Lemma sum_correct_counts (G : Dict) :
  sumZ (map ExecEvalBenchmarkModelReport.correct_count (map model_report_of G))
  = total_correct G.
Proof. unfold total_correct. now rewrite map_map. Qed.

Lemma sum_incorrect_counts (G : Dict) :
  sumZ (map ExecEvalBenchmarkModelReport.incorrect_count (map model_report_of G))
  = (total_len G - total_correct G)%Z.
Proof.
  unfold total_len, total_correct. rewrite map_map.
  induction G as [|item G IH]; [reflexivity|].
  cbn [map]. rewrite !sumZ_cons, IH. cbn. lia.
Qed.

Lemma groups_of_results_totals l :
  total_len (groups_from l []) = len l /\
  total_correct (groups_from l []) = count_correct l.
Proof.
  rewrite groups_from_total_len, groups_from_total_correct.
  change (total_len []) with 0%Z. change (total_correct []) with 0%Z. lia.
Qed.

Lemma aggregate_no_results cr :
  ExecEvalBenchmarkCompleteResult.results cr = [] ->
  aggregate cr = Raise (ZeroDivisionError "division by zero").
Proof.
  intros H. unfold aggregate, tables_of. rewrite H. reflexivity.
Qed.

(** The frame a pass leaves when there are results. *)
Lemma aggregate_defined cr :
  let results := ExecEvalBenchmarkCompleteResult.results cr in
  let reports := map model_report_of (groups_from results []) in
  results <> [] ->
  exists f,
    aggregate cr = Ok f /\
    model_reports f = reports /\
    overall_correct f = count_correct results /\
    overall_incorrect f = (len results - count_correct results)%Z /\
    overall_accuracy f = inject_Z (count_correct results) / inject_Z (len results) /\
    avg_tokens_per_second f
    = sumQ (map ExecEvalBenchmarkModelReport.average_tokens_per_second reports)
      / inject_Z (len reports) /\
    avg_total_duration f
    = sumQ (map ExecEvalBenchmarkModelReport.average_total_duration_ms reports)
      / inject_Z (len reports) /\
    avg_load_duration f
    = sumQ (map ExecEvalBenchmarkModelReport.average_load_duration_ms reports)
      / inject_Z (len reports).
Proof.
  intros results reports Hne.
  destruct (groups_of_results_totals results) as [Hlen Hcor].
  pose proof (len_positive _ Hne) as Hpos.
  assert (Hreports : len reports <> 0%Z).
  { pose proof (groups_of_results_not_nil results Hne) as HG.
    unfold reports, len. rewrite length_map.
    destruct (groups_from results []); [congruence|]. cbn [List.length]. lia. }
  unfold aggregate, overall_statistics. cbv zeta.
  cbn [tables_of model_reports model_results overall_correct overall_incorrect
       set_model_reports set_model_results set_overall_correct
       set_overall_incorrect set_overall_accuracy set_avg_tokens_per_second
       set_avg_total_duration set_avg_load_duration].
  fold results. fold reports.
  assert (Hoc : sumZ (map ExecEvalBenchmarkModelReport.correct_count reports)
                = count_correct results).
  { unfold reports. now rewrite sum_correct_counts. }
  assert (Hoi : sumZ (map ExecEvalBenchmarkModelReport.incorrect_count reports)
                = (len results - count_correct results)%Z).
  { unfold reports. now rewrite sum_incorrect_counts, Hlen, Hcor. }
  rewrite Hoc, Hoi, Zplus_minus.
  rewrite (truediv_defined _ (len results)) by lia. cbn [bind].
  rewrite !(truediv_defined _ _ Hreports). cbn [bind].
  eexists. split; [reflexivity|].
  repeat split; reflexivity.
Qed.

Lemma generate_report_aggregate cr :
  generate_report cr = (f <- aggregate cr ;; Ok (build_report cr f)).
Proof.
  unfold generate_report. rewrite aggregation_pass_aggregate.
  destruct (aggregate cr) as [f|e] eqn:E; cbn [bind]; [|reflexivity].
  rewrite aggregation_pass_aggregate, E. reflexivity.
Qed.

(** C8.  Each of the two aggregation passes computes the same groups and
    statistics, whatever the variables hold when it starts; the report
    returned, or the exception raised, is that of a single pass. *)
Theorem duplicate_pass_is_redundant (cr : ExecEvalBenchmarkCompleteResult.t) :
  (forall f, aggregation_pass cr f = aggregation_pass cr initial_frame) /\
  generate_report cr = generate_report_single_pass cr.
Proof.
  split.
  - intros f. now rewrite !aggregation_pass_aggregate.
  - rewrite generate_report_aggregate. unfold generate_report_single_pass.
    now rewrite aggregation_pass_aggregate.
Qed.

(** C3, as the code has it.  No ratio of [generate_report] is guarded.
    With no results at all the overall accuracy divides zero by zero and
    [ZeroDivisionError] is raised; with at least one result a report is
    returned, every model group of which holds a result, so that no
    denominator is zero. *)
Theorem generate_report_division (cr : ExecEvalBenchmarkCompleteResult.t) :
  (ExecEvalBenchmarkCompleteResult.results cr = [] /\
   generate_report cr = Raise (ZeroDivisionError "division by zero"))
  \/
  (ExecEvalBenchmarkCompleteResult.results cr <> [] /\
   exists r,
     generate_report cr = Ok r /\
     ExecEvalBenchmarkReport.models r <> [] /\
     Forall (fun m =>
               ExecEvalBenchmarkModelReport.results m <> [] /\
               ExecEvalBenchmarkModelReport.accuracy m
               = inject_Z (ExecEvalBenchmarkModelReport.correct_count m)
                 / inject_Z (len (ExecEvalBenchmarkModelReport.results m)))
            (ExecEvalBenchmarkReport.models r)).
Proof.
  rewrite generate_report_aggregate.
  destruct (ExecEvalBenchmarkCompleteResult.results cr) as [|res l] eqn:E.
  - left. split; [reflexivity|]. now rewrite (aggregate_no_results cr E).
  - right. split; [discriminate|].
    assert (Hne : ExecEvalBenchmarkCompleteResult.results cr <> [])
      by (rewrite E; discriminate).
    destruct (aggregate_defined cr Hne) as [f [Hf [Hrep _]]].
    rewrite Hf. cbn [bind]. eexists. split; [reflexivity|].
    cbn [build_report ExecEvalBenchmarkReport.models]. rewrite Hrep, E.
    split.
    + pose proof (groups_of_results_not_nil (res :: l)) as HG.
      destruct (groups_from (res :: l) []); [|discriminate].
      exfalso. now apply HG.
    + apply Forall_map.
      assert (HG : Forall (fun it => snd it <> []) (groups_from (res :: l) []))
        by (apply groups_from_nonempty_groups; constructor).
      revert HG. apply Forall_impl. intros item Hitem. split; [exact Hitem|reflexivity].
Qed.

(** C3 as stated fails: a report over no results raises the division
    error. *)
Lemma generate_report_raises_on_no_results :
  ExecEvalBenchmarkCompleteResult.results Scenario.no_results = [] /\
  generate_report Scenario.no_results = Raise (ZeroDivisionError "division by zero").
Proof. split; reflexivity. Qed.

(** C1, as the code has it.  The overall accuracy of a report is the
    pooled ratio: the correct counts summed over the models, divided by
    the correct and incorrect counts summed over the models, that is the
    number of correct results over the number of results. *)
Theorem overall_accuracy_is_pooled (cr : ExecEvalBenchmarkCompleteResult.t)
    (r : ExecEvalBenchmarkReport.t) :
  generate_report cr = Ok r ->
  ExecEvalBenchmarkReport.overall_accuracy r
  == inject_Z (ExecEvalBenchmarkReport.overall_correct_count r)
     / inject_Z (ExecEvalBenchmarkReport.overall_correct_count r
                 + ExecEvalBenchmarkReport.overall_incorrect_count r) /\
  ExecEvalBenchmarkReport.overall_correct_count r
  = sumZ (map ExecEvalBenchmarkModelReport.correct_count
              (ExecEvalBenchmarkReport.models r)) /\
  ExecEvalBenchmarkReport.overall_incorrect_count r
  = sumZ (map ExecEvalBenchmarkModelReport.incorrect_count
              (ExecEvalBenchmarkReport.models r)) /\
  ExecEvalBenchmarkReport.overall_correct_count r
  = count_correct (ExecEvalBenchmarkCompleteResult.results cr) /\
  (ExecEvalBenchmarkReport.overall_correct_count r
   + ExecEvalBenchmarkReport.overall_incorrect_count r)%Z
  = len (ExecEvalBenchmarkCompleteResult.results cr).
Proof.
  rewrite generate_report_aggregate. intros H.
  destruct (ExecEvalBenchmarkCompleteResult.results cr) as [|res l] eqn:E.
  - rewrite (aggregate_no_results cr E) in H. discriminate H.
  - assert (Hne : ExecEvalBenchmarkCompleteResult.results cr <> [])
      by (rewrite E; discriminate).
    destruct (aggregate_defined cr Hne) as [f [Hf [Hrep [Hoc [Hoi [Hacc _]]]]]].
    rewrite Hf in H. cbn [bind] in H. inversion H as [Hr]. clear H.
    cbn [build_report ExecEvalBenchmarkReport.models
         ExecEvalBenchmarkReport.overall_accuracy
         ExecEvalBenchmarkReport.overall_correct_count
         ExecEvalBenchmarkReport.overall_incorrect_count].
    rewrite Hrep, Hoc, Hoi, Hacc, sum_correct_counts, sum_incorrect_counts.
    destruct (groups_of_results_totals (ExecEvalBenchmarkCompleteResult.results cr))
      as [Hlen Hcor].
    rewrite Hlen, Hcor, E.
    rewrite Zplus_minus.
    repeat split; try reflexivity.
Qed.

Lemma overall_accuracy_is_pooled_witness :
  exists r,
    generate_report Scenario.two_models = Ok r /\
    ExecEvalBenchmarkReport.overall_correct_count r = 5%Z /\
    ExecEvalBenchmarkReport.overall_incorrect_count r = 1%Z /\
    ExecEvalBenchmarkReport.overall_accuracy r == 5 # 6.
Proof.
  destruct (generate_report Scenario.two_models) as [r|e] eqn:E;
    [|vm_compute in E; discriminate E].
  exists r. split; [reflexivity|].
  destruct (overall_accuracy_is_pooled Scenario.two_models r E)
    as [Hacc [_ [_ [Hoc Hsum]]]].
  assert (Hc : ExecEvalBenchmarkReport.overall_correct_count r = 5%Z)
    by (rewrite Hoc; reflexivity).
  assert (Hi : ExecEvalBenchmarkReport.overall_incorrect_count r = 1%Z).
  { rewrite Hc in Hsum. change (len _) with 6%Z in Hsum. lia. }
  split; [exact Hc|]. split; [exact Hi|].
  rewrite Hacc, Hc, Hi. reflexivity.
Defined.

(** C1 as stated fails: with model A at 3 of 4 and model B at 2 of 2, the
    per-model accuracies are 3/4 and 1, their mean is 7/8, and the
    overall accuracy of the report is 5/6. *)
Lemma overall_accuracy_is_not_mean_of_models :
  exists r,
    generate_report Scenario.two_models = Ok r /\
    List.length (ExecEvalBenchmarkReport.models r) = 2%nat /\
    Forall2 Qeq (map ExecEvalBenchmarkModelReport.accuracy
                     (ExecEvalBenchmarkReport.models r)) [3 # 4; 1] /\
    mean (map ExecEvalBenchmarkModelReport.accuracy
              (ExecEvalBenchmarkReport.models r)) == 7 # 8 /\
    ExecEvalBenchmarkReport.overall_accuracy r == 5 # 6 /\
    ~ ExecEvalBenchmarkReport.overall_accuracy r
      == mean (map ExecEvalBenchmarkModelReport.accuracy
                   (ExecEvalBenchmarkReport.models r)).
Proof.
  eexists. split; [vm_compute; reflexivity|].
  split; [reflexivity|].
  split; [repeat constructor|].
  split; [reflexivity|]. split; [reflexivity|].
  intros H. vm_compute in H. discriminate H.
Qed.

(* ================================================================== *)
(** * Further properties *)

(** ** Model identifier parser *)

Lemma split_head s :
  exists rest,
    PyStr.split_from provider_delimiter 0 s = before_first "~" s :: rest.
Proof.
  induction s as [|c s [rest IH]].
  - now exists [].
  - rewrite split_from_delimiter_cons. cbn [before_first].
    destruct (Ascii.eqb "~"%char c).
    + eexists; reflexivity.
    + rewrite IH. eexists; reflexivity.
Qed.

Lemma before_first_no_delimiter s :
  PyStr.contains provider_delimiter (before_first "~" s) = false.
Proof.
  induction s as [|c s IH]; [reflexivity|].
  cbn [before_first]. destruct (Ascii.eqb "~"%char c) eqn:E; [reflexivity|].
  now rewrite contains_delimiter_cons, E, IH.
Qed.

(** What [parse_model_string] returns, by cases on the model string. *)
Lemma parse_model_string_cases model :
  parse_model_string model =
  if PyStr.contains provider_delimiter model
  then
    if str_in (before_first "~" model) supported_providers
    then Ok (before_first "~" model,
             PyStr.join provider_delimiter
               (tl (PyStr.split_from provider_delimiter 0 model)))
    else Raise (ValueError
                  ("Unsupported provider: " ++ before_first "~" model ++ ". "
                   ++ "Supported providers are: "
                   ++ "ollama, anthropic, deepseek, openai, gemini"))
  else Ok ("ollama", model).
Proof.
  unfold parse_model_string.
  destruct (PyStr.contains provider_delimiter model); cbn [negb]; [|reflexivity].
  rewrite split_delimiter. cbn [bind].
  destruct (split_head model) as [rest ->]. cbn [tl].
  destruct (str_in (before_first "~" model) supported_providers); reflexivity.
Qed.

(** X1.  Whenever a model string that contains the delimiter parses, the
    provider is the text before the first delimiter and holds none, and
    provider, delimiter and name give the string back, also when the
    name itself contains the delimiter. *)
Theorem parse_model_string_keeps_name (model provider name : string) :
  PyStr.contains provider_delimiter model = true ->
  parse_model_string model = Ok (provider, name) ->
  provider = before_first "~" model /\
  PyStr.contains provider_delimiter provider = false /\
  (provider ++ provider_delimiter ++ name)%string = model.
Proof.
  intros Hc Hp.
  pose proof (parse_model_string_rejoin model provider name Hc Hp) as Hj.
  rewrite parse_model_string_cases, Hc in Hp.
  destruct (str_in (before_first "~" model) supported_providers); [|discriminate].
  inversion Hp as [[H1 H2]].
  split; [reflexivity|]. split; [apply before_first_no_delimiter|].
  rewrite H1, H2. exact Hj.
Qed.

Lemma parse_model_string_keeps_name_witness :
  parse_model_string "ollama~hf.co/org~model:q4" = Ok ("ollama", "hf.co/org~model:q4") /\
  ("ollama" ++ provider_delimiter ++ "hf.co/org~model:q4")%string
  = "ollama~hf.co/org~model:q4".
Proof.
  split; [reflexivity|].
  exact (proj2 (proj2 (parse_model_string_keeps_name
                         "ollama~hf.co/org~model:q4" "ollama" "hf.co/org~model:q4"
                         eq_refl eq_refl))).
Defined.

(** X2.  A name without delimiter parses to the same provider and name
    with and without the prefix "ollama~": two different model strings
    stand for the same model. *)
Theorem parse_model_string_default_alias (name : string) :
  PyStr.contains provider_delimiter name = false ->
  parse_model_string name = Ok ("ollama", name) /\
  parse_model_string ("ollama" ++ provider_delimiter ++ name) = Ok ("ollama", name) /\
  ("ollama" ++ provider_delimiter ++ name)%string <> name.
Proof.
  intros Hn. split; [|split].
  - rewrite parse_model_string_cases, Hn. reflexivity.
  - unfold parse_model_string.
    rewrite contains_delimiter_app, split_delimiter. cbn [negb bind].
    rewrite (split_at_first_delimiter "ollama" name eq_refl).
    rewrite (split_without_delimiter name Hn). reflexivity.
  - intros H.
    pose proof (contains_delimiter_app "ollama" name) as Hc.
    rewrite H in Hc. congruence.
Qed.

Lemma parse_model_string_default_alias_witness :
  parse_model_string "llama3.2" = parse_model_string "ollama~llama3.2".
Proof.
  destruct (parse_model_string_default_alias "llama3.2" eq_refl) as [H1 [H2 _]].
  exact (eq_trans H1 (eq_sym H2)).
Defined.

(** X3.  [parse_model_string] fails exactly on the strings that contain
    the delimiter and whose text before the first delimiter is not one of
    the five supported tags; it then raises a [ValueError] naming that
    text and the five tags.  On every other string it returns the default
    provider with the whole string, or the supported prefix. *)
Theorem parse_model_string_outcome (model : string) :
  match parse_model_string model with
  | Ok (provider, name) =>
      (PyStr.contains provider_delimiter model = false /\
       provider = "ollama" /\ name = model)
      \/
      (PyStr.contains provider_delimiter model = true /\
       provider = before_first "~" model /\ In provider supported_providers)
  | Raise e =>
      PyStr.contains provider_delimiter model = true /\
      ~ In (before_first "~" model) supported_providers /\
      e = ValueError
            ("Unsupported provider: " ++ before_first "~" model ++ ". "
             ++ "Supported providers are: "
             ++ "ollama, anthropic, deepseek, openai, gemini")
  end.
Proof.
  rewrite parse_model_string_cases.
  destruct (PyStr.contains provider_delimiter model); [|left; tauto].
  destruct (str_in (before_first "~" model) supported_providers) eqn:E.
  - right. repeat split. now apply str_in_In.
  - repeat split. intros Hin. apply str_in_In in Hin. congruence.
Qed.

(** X4.  A run for a model string whose prefix is not a supported
    provider raises the parser's [ValueError] at once: no completion,
    extraction, execution or comparison is called, the world is left as
    it was. *)
Theorem run_rejects_unsupported_provider {W : Type} (C : Collaborators W)
    (model : string) (bf : ExecEvalBenchmarkFile.t) (w : W) :
  PyStr.contains provider_delimiter model = true ->
  ~ In (before_first "~" model) supported_providers ->
  run_benchmark_for_model C model bf w
  = (Raise (ValueError
              ("Unsupported provider: " ++ before_first "~" model ++ ". "
               ++ "Supported providers are: "
               ++ "ollama, anthropic, deepseek, openai, gemini")), w).
Proof.
  intros Hc Hn.
  unfold run_benchmark_for_model, bindM, lift.
  rewrite parse_model_string_cases, Hc.
  destruct (str_in (before_first "~" model) supported_providers) eqn:E.
  - apply str_in_In in E. contradiction.
  - reflexivity.
Qed.

Lemma run_rejects_unsupported_provider_witness :
  run_benchmark_for_model Scenario.collaborators "groq~llama3"
    (Scenario.benchmark raw_string_evaluator) 0%nat
  = (Raise (ValueError
              "Unsupported provider: groq. Supported providers are: ollama, anthropic, deepseek, openai, gemini"),
     0%nat).
Proof.
  refine (run_rejects_unsupported_provider Scenario.collaborators "groq~llama3"
            (Scenario.benchmark raw_string_evaluator) 0%nat eq_refl _).
  cbn. intros [H|[H|[H|[H|[H|[]]]]]]; discriminate H.
Defined.

(** ** Benchmark execution *)

Lemma replace_from_absent old new s :
  PyStr.contains old s = false -> PyStr.replace_from old new 0 s = s.
Proof.
  induction s as [|c s IH]; [reflexivity|].
  cbn [PyStr.contains PyStr.replace_from]. intros H.
  apply orb_false_iff in H as [Hp Hs].
  rewrite Hp, (IH Hs). reflexivity.
Qed.

Lemma replace_marker_absent key new s :
  PyStr.contains (marker key) s = false -> PyStr.replace (marker key) new s = s.
Proof. intros H. unfold PyStr.replace, marker. cbn [append]. now apply replace_from_absent. Qed.

(** X5.  Templating leaves the base prompt as it is when none of the
    markers of the given variables occurs in it -- in particular markers
    of other keys stay -- and when there are no variables. *)
Theorem render_prompt_without_markers (base_prompt : string)
    (dynamic_variables : option (list (string * PyValue))) :
  Forall (fun kv => PyStr.contains (marker (fst kv)) base_prompt = false)
         (items dynamic_variables) ->
  render_prompt base_prompt dynamic_variables = base_prompt.
Proof.
  unfold render_prompt. intros H.
  destruct (dict_truthy dynamic_variables); [|reflexivity].
  induction H as [|kv l Hkv Hl IH]; [reflexivity|].
  cbn [fold_left]. rewrite (replace_marker_absent _ _ _ Hkv). exact IH.
Qed.

Lemma render_prompt_without_markers_witness :
  render_prompt "Sum {{x}} and {{y}}" (Some [("a", VInt 1); ("b", VStr "{{x}}")])
  = "Sum {{x}} and {{y}}".
Proof.
  apply render_prompt_without_markers.
  repeat constructor.
Defined.

Section ExecutionIndependence.
Context {W : Type} (C : Collaborators W) (execute : string -> M W string).

Lemma with_execute_response provider prompt name :
  get_bench_response (with_execute C execute) provider prompt name
  = get_bench_response C provider prompt name.
Proof. unfold get_bench_response. destruct (dispatch_branch provider); reflexivity. Qed.

Lemma with_execute_run_prompt provider name model bf i row w :
  ExecEvalBenchmarkFile.evaluator bf = raw_string_evaluator ->
  run_prompt (with_execute C execute) provider name model bf i row w
  = run_prompt C provider name model bf i row w.
Proof.
  intros Hk. unfold run_prompt, bindM.
  rewrite with_execute_response, Hk. reflexivity.
Qed.

Lemma with_execute_run_prompts provider name model bf rows :
  ExecEvalBenchmarkFile.evaluator bf = raw_string_evaluator ->
  forall i results w,
    run_prompts (with_execute C execute) provider name model bf i rows results w
    = run_prompts C provider name model bf i rows results w.
Proof.
  intros Hk. induction rows as [|row rest IH]; intros i results w; [reflexivity|].
  cbn [run_prompts]. unfold bindM.
  rewrite (with_execute_run_prompt _ _ _ _ _ _ _ Hk).
  destruct (run_prompt C provider name model bf i row w) as [[r|e] w']; [|reflexivity].
  apply IH.
Qed.

End ExecutionIndependence.

(** X6.  With the raw-string evaluator no generated code is executed: the
    outcome of a run, and the world it leaves, are the same whatever the
    code execution capability is. *)
Theorem raw_string_runs_no_code {W : Type} (C : Collaborators W)
    (execute : string -> M W string) (model : string)
    (bf : ExecEvalBenchmarkFile.t) (w : W) :
  ExecEvalBenchmarkFile.evaluator bf = raw_string_evaluator ->
  run_benchmark_for_model (with_execute C execute) model bf w
  = run_benchmark_for_model C model bf w.
Proof.
  intros Hk. unfold run_benchmark_for_model, bindM, lift.
  destruct (parse_model_string model) as [[provider name]|e]; [|reflexivity].
  now apply with_execute_run_prompts.
Qed.

Lemma raw_string_runs_no_code_witness :
  run_benchmark_for_model
    (with_execute Scenario.collaborators
       (fun _ => raise (OtherException "RuntimeError" "must not run")))
    "llama3" (Scenario.benchmark raw_string_evaluator) 0%nat
  = run_benchmark_for_model Scenario.collaborators "llama3"
      (Scenario.benchmark raw_string_evaluator) 0%nat.
Proof.
  exact (raw_string_runs_no_code Scenario.collaborators _ "llama3"
           (Scenario.benchmark raw_string_evaluator) 0%nat eq_refl).
Defined.

Section LoopShape.
Context {W : Type} (C : Collaborators W).
Variables (provider name model : string) (bf : ExecEvalBenchmarkFile.t).

(** The loop reads the base prompt and the evaluator of the benchmark
    file, not its rows. *)
Lemma run_prompts_with_prompts l rows : forall i results w,
  run_prompts C provider name model (with_prompts bf l) i rows results w
  = run_prompts C provider name model bf i rows results w.
Proof.
  induction rows as [|row rest IH]; intros i results w; [reflexivity|].
  cbn [run_prompts]. unfold bindM.
  change (run_prompt C provider name model (with_prompts bf l) i row w)
    with (run_prompt C provider name model bf i row w).
  destruct (run_prompt C provider name model bf i row w) as [[r|e] w']; [|reflexivity].
  apply IH.
Qed.

Lemma run_prompts_app l1 : forall l2 i results w,
  run_prompts C provider name model bf i (l1 ++ l2) results w
  = match run_prompts C provider name model bf i l1 results w with
    | (Ok rs, w') =>
        run_prompts C provider name model bf (i + len l1) l2 rs w'
    | (Raise e, w') => (Raise e, w')
    end.
Proof.
  induction l1 as [|row l1 IH]; intros l2 i results w.
  - cbn [app run_prompts]. unfold ret, len. cbn [List.length Z.of_nat].
    now rewrite Z.add_0_r.
  - cbn [app run_prompts]. unfold bindM.
    destruct (run_prompt C provider name model bf i row w) as [[r|e] w']; [|reflexivity].
    rewrite IH. replace (i + 1 + len l1)%Z with (i + len (row :: l1))%Z; [reflexivity|].
    unfold len. cbn [List.length]. lia.
Qed.

Lemma run_prompts_shape rows : forall i results w rs w',
  run_prompts C provider name model bf i rows results w = (Ok rs, w') ->
  exists new, rs = results ++ new /\ List.length new = List.length rows.
Proof.
  induction rows as [|row rest IH]; intros i results w rs w'.
  - cbn [run_prompts]. unfold ret. intros [= <- _]. exists []. now rewrite app_nil_r.
  - cbn [run_prompts]. unfold bindM.
    destruct (run_prompt C provider name model bf i row w) as [[r|e] w1]; [|discriminate].
    intros H. destruct (IH _ _ _ _ _ H) as [new [-> Hlen]].
    exists (r :: new). rewrite <- app_assoc. split; [reflexivity|].
    cbn [List.length]. now rewrite Hlen.
Qed.

End LoopShape.

(** X7.  The results of the first prompts do not depend on the prompts
    that follow: when the run over the rows [l1 ++ l2] returns, the run
    over [l1] alone, started in the same world, returns its first
    [length l1] results. *)
Theorem run_results_are_prefix_stable {W : Type} (C : Collaborators W)
    (model : string) (bf : ExecEvalBenchmarkFile.t) (l1 l2 : list PromptRow.t)
    (w w' : W) (rs : list OutputResult) :
  run_benchmark_for_model C model (with_prompts bf (l1 ++ l2)) w = (Ok rs, w') ->
  exists w1,
    run_benchmark_for_model C model (with_prompts bf l1) w
    = (Ok (firstn (List.length l1) rs), w1).
Proof.
  unfold run_benchmark_for_model, bindM, lift.
  destruct (parse_model_string model) as [[provider name]|e]; [|discriminate].
  cbn [with_prompts ExecEvalBenchmarkFile.prompts].
  rewrite !run_prompts_with_prompts, run_prompts_app.
  destruct (run_prompts C provider name model bf 1 l1 [] w) as [[rs1|e] w1] eqn:E1;
    [|discriminate].
  intros H2. exists w1. f_equal. f_equal.
  destruct (run_prompts_shape C _ _ _ _ _ _ _ _ _ _ E1) as [new1 [-> Hl1]].
  destruct (run_prompts_shape C _ _ _ _ _ _ _ _ _ _ H2) as [new2 [-> Hl2]].
  cbn [app]. rewrite <- Hl1, firstn_app, firstn_all, Nat.sub_diag.
  cbn [firstn]. now rewrite app_nil_r.
Qed.

Lemma run_results_are_prefix_stable_witness :
  exists w1,
    run_benchmark_for_model Scenario.collaborators "llama3"
      (with_prompts (Scenario.benchmark raw_string_evaluator)
                    (firstn 1 Scenario.rows)) 0%nat
    = (Ok (firstn 1
             (match fst (run_benchmark_for_model Scenario.collaborators "llama3"
                           (Scenario.benchmark raw_string_evaluator) 0%nat) with
              | Ok rs => rs
              | Raise _ => []
              end)), w1).
Proof.
  exact (run_results_are_prefix_stable Scenario.collaborators "llama3"
           (Scenario.benchmark raw_string_evaluator)
           (firstn 1 Scenario.rows) (skipn 1 Scenario.rows) 0%nat 2%nat _ eq_refl).
Defined.

(** X8.  A result is marked correct only on the verdict of the
    comparison: when an iteration appends a result with [correct = true],
    the evaluator kind is one of the three supported ones and
    [eval_result_compare] was called with that kind and the row's
    expected text and returned [True]; no error path sets the flag. *)
Theorem correct_only_by_comparison {W : Type} (C : Collaborators W)
    (provider name model : string) (bf : ExecEvalBenchmarkFile.t) (i : Z)
    (row : PromptRow.t) (w w' : W) (r : OutputResult) :
  run_prompt C provider name model bf i row w = (Ok r, w') ->
  ExeEvalBenchmarkOutputResult.correct r = true ->
  (forall text, ExecEvalBenchmarkFile.evaluator bf <> other_evaluator text) /\
  exists actual w1,
    eval_result_compare C (ExecEvalBenchmarkFile.evaluator bf)
      (expected_of row) actual w1 = (Ok true, w').
Proof.
  unfold run_prompt, bindM. fold (prompt_of bf row). fold (expected_of row).
  destruct (get_bench_response C provider (prompt_of bf row) name w)
    as [[resp|e] w1]; [|discriminate].
  destruct (parse_markdown_backticks C (BenchPromptResponse.response resp) w1)
    as [[code|e] w2]; [|discriminate].
  unfold evaluate_guarded, try_exceptM, evaluate, bindM, ret, raise.
  destruct (ExecEvalBenchmarkFile.evaluator bf) as [| | |text] eqn:Hk.
  - destruct (execute_python_code C code w2) as [[out|e] w3].
    + destruct (eval_result_compare C execute_python_code_with_num_output
                  (expected_of row) (PyStr.strip out) w3) as [[c|e] w4] eqn:Hc.
      * intros [= <- <-]. cbn. intros ->. split; [discriminate|]. eauto.
      * intros [= <- <-]. cbn. discriminate.
    + intros [= <- <-]. cbn. discriminate.
  - destruct (execute_python_code C code w2) as [[out|e] w3].
    + destruct (eval_result_compare C execute_python_code_with_string_output
                  (expected_of row) out w3) as [[c|e] w4] eqn:Hc.
      * intros [= <- <-]. cbn. intros ->. split; [discriminate|]. eauto.
      * intros [= <- <-]. cbn. discriminate.
    + intros [= <- <-]. cbn. discriminate.
  - destruct (eval_result_compare C raw_string_evaluator
                (expected_of row) code w2) as [[c|e] w4] eqn:Hc.
    + intros [= <- <-]. cbn. intros ->. split; [discriminate|]. eauto.
    + intros [= <- <-]. cbn. discriminate.
  - intros [= <- <-]. cbn. discriminate.
Qed.

Lemma correct_only_by_comparison_witness :
  exists actual w1,
    eval_result_compare Scenario.collaborators execute_python_code_with_num_output
      "4" actual w1 = (Ok true, 1%nat).
Proof.
  pose (row := {| PromptRow.dynamic_variables := None;
                  PromptRow.expectation := VInt 4 |}).
  destruct (correct_only_by_comparison Scenario.collaborators "ollama" "llama3"
              "llama3" (Scenario.benchmark execute_python_code_with_num_output)
              1 row 0%nat 1%nat _ eq_refl eq_refl) as [_ H].
  exact H.
Defined.

(** X9.  A prompt whose ollama call failed is graded like any other: the
    text "Error: ..." of the substituted response goes through extraction
    and evaluation, and the result carries the evaluator's verdict on it
    together with a response marked as errored. *)
Theorem failed_ollama_prompt_is_graded {W : Type} (C : Collaborators W)
    (name model : string) (bf : ExecEvalBenchmarkFile.t) (i : Z)
    (row : PromptRow.t) (e : PyException) (w w1 w2 w3 : W)
    (code er : string) (c : bool) :
  ollama_bench_prompt C (prompt_of bf row) name w = (Raise e, w1) ->
  parse_markdown_backticks C ("Error: " ++ str_exception e) w1 = (Ok code, w2) ->
  evaluate_guarded C (ExecEvalBenchmarkFile.evaluator bf) code (expected_of row) w2
    = (Ok (er, c), w3) ->
  exists r,
    run_prompt C "ollama" name model bf i row w = (Ok r, w3) /\
    BenchPromptResponse.errored (ExeEvalBenchmarkOutputResult.prompt_response r) = true /\
    ExeEvalBenchmarkOutputResult.correct r = c /\
    ExeEvalBenchmarkOutputResult.execution_result r = er.
Proof.
  intros Hfail Hx He.
  assert (Hd : get_bench_response C "ollama" (prompt_of bf row) name w
               = (Ok (ollama_error_response e), w1)).
  { unfold get_bench_response.
    cbn [dispatch_branch String.eqb Ascii.eqb Bool.eqb].
    unfold try_exceptM. now rewrite Hfail. }
  eexists. split.
  - exact (run_prompt_steps C "ollama" name model bf i row _ _ _ _ _ _ _ _ Hd Hx He).
  - cbn. repeat split.
Qed.

Lemma failed_ollama_prompt_is_graded_witness :
  exists r,
    run_prompt Scenario.collaborators_failing_provider "ollama" "llama3" "llama3"
      (Scenario.benchmark execute_python_code_with_num_output) 1
      {| PromptRow.dynamic_variables := None; PromptRow.expectation := VInt 4 |}
      0%nat = (Ok r, 1%nat) /\
    BenchPromptResponse.errored (ExeEvalBenchmarkOutputResult.prompt_response r) = true /\
    ExeEvalBenchmarkOutputResult.correct r = true.
Proof.
  destruct (failed_ollama_prompt_is_graded Scenario.collaborators_failing_provider
              "llama3" "llama3"
              (Scenario.benchmark execute_python_code_with_num_output) 1
              {| PromptRow.dynamic_variables := None; PromptRow.expectation := VInt 4 |}
              (OtherException "ConnectionError" "server down")
              0%nat 1%nat 1%nat 1%nat "Error: server down" "4" true
              eq_refl eq_refl eq_refl) as [r [Hr [He [Hc _]]]].
  exists r. split; [exact Hr|]. split; [exact He|exact Hc].
Defined.

(** X17.  A run returns all its results or none: when the prompts [l1]
    have been answered and the iteration for the next row raises (a
    remote completion call or the extraction failed), the run raises
    that exception and the results already computed are not returned. *)
Theorem run_keeps_no_partial_results {W : Type} (C : Collaborators W)
    (model provider name : string) (bf : ExecEvalBenchmarkFile.t)
    (l1 l2 : list PromptRow.t) (row : PromptRow.t)
    (w w1 w2 : W) (rs : list OutputResult) (e : PyException) :
  parse_model_string model = Ok (provider, name) ->
  run_benchmark_for_model C model (with_prompts bf l1) w = (Ok rs, w1) ->
  run_prompt C provider name model bf (1 + len l1) row w1 = (Raise e, w2) ->
  run_benchmark_for_model C model (with_prompts bf (l1 ++ row :: l2)) w
  = (Raise e, w2).
Proof.
  intros Hparse. unfold run_benchmark_for_model, bindM, lift. rewrite Hparse.
  cbn [with_prompts ExecEvalBenchmarkFile.prompts].
  rewrite !run_prompts_with_prompts, run_prompts_app.
  intros -> Hraise.
  now apply run_prompts_cons_raise.
Qed.

Lemma run_keeps_no_partial_results_witness :
  run_benchmark_for_model
    {| ollama_bench_prompt := Scenario.completion "print(4)";
       anthropic_bench_prompt := Scenario.completion "print(4)";
       deepseek_bench_prompt := Scenario.completion "print(4)";
       openai_bench_prompt :=
         fun prompt name calls =>
           if Nat.eqb calls 0 then Scenario.completion "4" prompt name calls
           else Scenario.failing_completion prompt name calls;
       gemini_bench_prompt := Scenario.completion "print(4)";
       parse_markdown_backticks := fun text => ret (PyStr.strip text);
       execute_python_code := fun _ => ret "4";
       eval_result_compare := fun _ expected actual => ret (expected =? actual)%string |}
    "openai~gpt-4o"
    (with_prompts (Scenario.benchmark raw_string_evaluator)
                  (firstn 1 Scenario.rows ++ skipn 1 Scenario.rows)) 0%nat
  = (Raise (OtherException "ConnectionError" "server down"), 2%nat).
Proof.
  refine (run_keeps_no_partial_results _ "openai~gpt-4o" "openai" "gpt-4o"
            (Scenario.benchmark raw_string_evaluator)
            (firstn 1 Scenario.rows) [] _ 0%nat 1%nat 2%nat _ _ eq_refl _ _).
  - vm_compute. reflexivity.
  - reflexivity.
Defined.

(** ** Report generation *)

Lemma groups_from_snoc l res d :
  groups_from (l ++ [res]) d
  = upsert (ExeEvalBenchmarkOutputResult.model res) res (groups_from l d).
Proof. unfold groups_from. now rewrite fold_left_app. Qed.

Lemma first_seen_snoc l k :
  first_seen (l ++ [k])
  = if str_in k (first_seen l) then first_seen l else first_seen l ++ [k].
Proof. unfold first_seen. now rewrite fold_left_app. Qed.

Lemma results_of_model_snoc k l res :
  results_of_model k (l ++ [res])
  = results_of_model k l
    ++ (if (ExeEvalBenchmarkOutputResult.model res =? k)%string then [res] else []).
Proof. unfold results_of_model. rewrite filter_app. reflexivity. Qed.

Lemma keys_upsert k res d :
  keys (upsert k res d) = if str_in k (keys d) then keys d else keys d ++ [k].
Proof.
  unfold keys, str_in. induction d as [|[k' v] d IH]; [reflexivity|].
  cbn [upsert map fst existsb].
  destruct (k =? k')%string; cbn [orb map fst]; [reflexivity|].
  rewrite IH. now destruct (existsb (String.eqb k) (map fst d)).
Qed.

Lemma str_in_false x xs : str_in x xs = false <-> ~ In x xs.
Proof.
  rewrite <- str_in_In. destruct (str_in x xs); split; congruence.
Qed.

Lemma upsert_groups l res d :
  NoDup (keys d) ->
  Forall (fun it => snd it = results_of_model (fst it) l) d ->
  (~ In (ExeEvalBenchmarkOutputResult.model res) (keys d) ->
   results_of_model (ExeEvalBenchmarkOutputResult.model res) l = []) ->
  Forall (fun it => snd it = results_of_model (fst it) (l ++ [res]))
         (upsert (ExeEvalBenchmarkOutputResult.model res) res d).
Proof.
  set (k := ExeEvalBenchmarkOutputResult.model res).
  induction d as [|[k' v] d IH]; intros Hnd Hall Hnew.
  - cbn [upsert]. constructor; [|constructor]. cbn [fst snd].
    rewrite results_of_model_snoc. fold k. rewrite String.eqb_refl.
    rewrite Hnew by (intros []). reflexivity.
  - inversion Hnd as [|? ? Hk' Hnd']; subst.
    inversion Hall as [|? ? Hv Hall']; subst. cbn [fst snd] in Hv.
    cbn [upsert]. destruct (k =? k')%string eqn:E.
    + apply String.eqb_eq in E. constructor.
      * cbn [fst snd]. rewrite results_of_model_snoc. fold k.
        rewrite E, String.eqb_refl, Hv. reflexivity.
      * rewrite Forall_forall in Hall' |- *. intros it Hit.
        rewrite results_of_model_snoc, <- (Hall' it Hit). fold k.
        destruct (k =? fst it)%string eqn:E'; [|now rewrite app_nil_r].
        apply String.eqb_eq in E'. exfalso. apply Hk'.
        rewrite <- E, E'. now apply in_map.
    + constructor.
      * cbn [fst snd]. rewrite results_of_model_snoc. fold k.
        rewrite E, app_nil_r. exact Hv.
      * apply IH; try assumption.
        intros Hn. apply Hnew. cbn [keys map fst]. intros [He|Hin].
        -- subst k'. now rewrite String.eqb_refl in E.
        -- now apply Hn.
Qed.

Lemma NoDup_snoc {A : Type} (l : list A) (x : A) :
  NoDup l -> ~ In x l -> NoDup (l ++ [x]).
Proof.
  induction 1 as [|y l Hy Hl IH]; intros Hx; cbn [app].
  - constructor; [intros []|constructor].
  - constructor.
    + rewrite in_app_iff. intros [H|[H|[]]]; [contradiction|].
      subst. apply Hx. now left.
    + apply IH. intros H. apply Hx. now right.
Qed.

(** What the grouping loop has built after the results [l]. *)
Lemma groups_invariant l :
  let G := groups_from l [] in
  keys G = first_seen (map ExeEvalBenchmarkOutputResult.model l) /\
  NoDup (keys G) /\
  Forall (fun it => snd it = results_of_model (fst it) l) G /\
  (forall k, ~ In k (keys G) -> results_of_model k l = []).
Proof.
  induction l as [|res l IH] using rev_ind.
  - cbn. repeat split; constructor.
  - cbv zeta in IH |- *. destruct IH as [Hkeys [Hnd [Hall Hnone]]].
    rewrite groups_from_snoc. set (G := groups_from l []) in *.
    set (k := ExeEvalBenchmarkOutputResult.model res).
    assert (Hk' : keys (upsert k res G)
                  = if str_in k (keys G) then keys G else keys G ++ [k])
      by apply keys_upsert.
    split; [|split; [|split]].
    + rewrite Hk', map_app.
      change (map ExeEvalBenchmarkOutputResult.model [res]) with [k].
      rewrite first_seen_snoc, !Hkeys. reflexivity.
    + rewrite Hk'. destruct (str_in k (keys G)) eqn:E; [exact Hnd|].
      apply NoDup_snoc; [exact Hnd|]. now apply str_in_false.
    + apply upsert_groups; try assumption. apply Hnone.
    + intros k0 Hk0. rewrite Hk' in Hk0.
      rewrite results_of_model_snoc. fold k.
      assert (Hout : ~ In k0 (keys G) /\ k <> k0).
      { destruct (str_in k (keys G)) eqn:E.
        - split; [exact Hk0|]. intros ->. apply str_in_In in E. contradiction.
        - rewrite in_app_iff in Hk0. split; [tauto|].
          intros ->. apply Hk0. right. now left. }
      destruct Hout as [Hout Hne].
      rewrite (Hnone k0 Hout).
      destruct (k =? k0)%string eqn:E; [|reflexivity].
      apply String.eqb_eq in E. contradiction.
Qed.

Lemma generate_report_models cr r :
  generate_report cr = Ok r ->
  ExecEvalBenchmarkCompleteResult.results cr <> [] /\
  ExecEvalBenchmarkReport.models r
  = map model_report_of
        (groups_from (ExecEvalBenchmarkCompleteResult.results cr) []).
Proof.
  rewrite generate_report_aggregate. intros H.
  assert (Hne : ExecEvalBenchmarkCompleteResult.results cr <> []).
  { intros E. rewrite (aggregate_no_results cr E) in H. discriminate H. }
  split; [exact Hne|].
  destruct (aggregate_defined cr Hne) as [f [Hf [Hrep _]]].
  rewrite Hf in H. cbn [bind] in H. inversion H. exact Hrep.
Qed.

(** X10.  Every model report holds exactly the results of its model
    string, in the order of the input; so each result of the input is in
    the report of its own model and in no other. *)
Theorem model_report_holds_its_results (cr : ExecEvalBenchmarkCompleteResult.t)
    (r : ExecEvalBenchmarkReport.t) :
  generate_report cr = Ok r ->
  Forall (fun m =>
            ExecEvalBenchmarkModelReport.results m
            = results_of_model (ExecEvalBenchmarkModelReport.model m)
                (ExecEvalBenchmarkCompleteResult.results cr))
         (ExecEvalBenchmarkReport.models r) /\
  (forall res,
     In res (ExecEvalBenchmarkCompleteResult.results cr) ->
     exists m,
       In m (ExecEvalBenchmarkReport.models r) /\
       ExecEvalBenchmarkModelReport.model m = ExeEvalBenchmarkOutputResult.model res /\
       In res (ExecEvalBenchmarkModelReport.results m)).
Proof.
  intros H. destruct (generate_report_models cr r H) as [_ ->].
  destruct (groups_invariant (ExecEvalBenchmarkCompleteResult.results cr))
    as [_ [_ [Hall Hnone]]].
  set (l := ExecEvalBenchmarkCompleteResult.results cr) in *.
  split.
  - apply Forall_map. revert Hall. apply Forall_impl. intros it Hit. exact Hit.
  - intros res Hres.
    set (k := ExeEvalBenchmarkOutputResult.model res).
    assert (Hin : In res (results_of_model k l)).
    { unfold results_of_model. apply filter_In. split; [exact Hres|].
      apply String.eqb_refl. }
    assert (Hk : In k (keys (groups_from l []))).
    { apply str_in_In. destruct (str_in k (keys (groups_from l []))) eqn:E;
        [reflexivity|].
      apply str_in_false in E. rewrite (Hnone k E) in Hin. destruct Hin. }
    unfold keys in Hk. apply in_map_iff in Hk as [it [Hfst Hit]].
    exists (model_report_of it). split; [now apply in_map|].
    split; [exact Hfst|].
    cbn [model_report_of ExecEvalBenchmarkModelReport.results].
    rewrite Forall_forall in Hall. rewrite (Hall it Hit), Hfst. exact Hin.
Qed.

Lemma model_report_holds_its_results_witness :
  exists r,
    generate_report Scenario.two_models = Ok r /\
    map (fun m => List.length (ExecEvalBenchmarkModelReport.results m))
        (ExecEvalBenchmarkReport.models r) = [4%nat; 2%nat] /\
    Forall (fun m =>
              ExecEvalBenchmarkModelReport.results m
              = results_of_model (ExecEvalBenchmarkModelReport.model m)
                  (ExecEvalBenchmarkCompleteResult.results Scenario.two_models))
           (ExecEvalBenchmarkReport.models r).
Proof.
  destruct (generate_report Scenario.two_models) as [r|e] eqn:E;
    [|vm_compute in E; discriminate E].
  exists r. split; [reflexivity|].
  split; [|exact (proj1 (model_report_holds_its_results Scenario.two_models r E))].
  vm_compute in E. inversion E. reflexivity.
Defined.

(** X11.  A report has one model report per distinct model string of the
    results, in the order in which the model strings first occur. *)
Theorem model_reports_in_first_seen_order (cr : ExecEvalBenchmarkCompleteResult.t)
    (r : ExecEvalBenchmarkReport.t) :
  generate_report cr = Ok r ->
  map ExecEvalBenchmarkModelReport.model (ExecEvalBenchmarkReport.models r)
  = first_seen (map ExeEvalBenchmarkOutputResult.model
                    (ExecEvalBenchmarkCompleteResult.results cr)) /\
  NoDup (map ExecEvalBenchmarkModelReport.model (ExecEvalBenchmarkReport.models r)).
Proof.
  intros H. destruct (generate_report_models cr r H) as [_ ->].
  destruct (groups_invariant (ExecEvalBenchmarkCompleteResult.results cr))
    as [Hkeys [Hnd _]].
  rewrite map_map.
  change (map (fun x => ExecEvalBenchmarkModelReport.model (model_report_of x))
              (groups_from (ExecEvalBenchmarkCompleteResult.results cr) []))
    with (keys (groups_from (ExecEvalBenchmarkCompleteResult.results cr) [])).
  split; assumption.
Qed.

Lemma model_reports_in_first_seen_order_witness :
  exists r,
    generate_report Scenario.two_models = Ok r /\
    map ExecEvalBenchmarkModelReport.model (ExecEvalBenchmarkReport.models r)
    = ["A"; "B"].
Proof.
  destruct (generate_report Scenario.two_models) as [r|e] eqn:E;
    [|vm_compute in E; discriminate E].
  exists r. split; [reflexivity|].
  rewrite (proj1 (model_reports_in_first_seen_order Scenario.two_models r E)).
  reflexivity.
Defined.

Lemma count_correct_bounds l : (0 <= count_correct l <= len l)%Z.
Proof.
  induction l as [|res l IH].
  - unfold count_correct, len. cbn. lia.
  - rewrite count_correct_cons. unfold len in *. cbn [List.length].
    destruct (ExeEvalBenchmarkOutputResult.correct res); cbn [one_if]; lia.
Qed.

Lemma ratio_bounds a b : (0 <= a <= b)%Z -> (0 < b)%Z ->
  0 <= inject_Z a / inject_Z b /\ inject_Z a / inject_Z b <= 1.
Proof.
  intros [Ha Hab] Hb.
  rewrite Zle_Qle in Ha, Hab. rewrite Zlt_Qlt in Hb.
  split.
  - apply Qle_shift_div_l; [exact Hb|]. rewrite Qmult_0_l. exact Ha.
  - apply Qle_shift_div_r; [exact Hb|]. rewrite Qmult_1_l. exact Hab.
Qed.

(** X12.  In every report returned, the counts of each model are not
    negative and add up to the number of its results, the accuracy of
    each model lies between 0 and 1, and so does the overall accuracy. *)
Theorem accuracies_are_ratios (cr : ExecEvalBenchmarkCompleteResult.t)
    (r : ExecEvalBenchmarkReport.t) :
  generate_report cr = Ok r ->
  Forall (fun m =>
            (0 <= ExecEvalBenchmarkModelReport.correct_count m)%Z /\
            (0 <= ExecEvalBenchmarkModelReport.incorrect_count m)%Z /\
            (ExecEvalBenchmarkModelReport.correct_count m
             + ExecEvalBenchmarkModelReport.incorrect_count m)%Z
            = len (ExecEvalBenchmarkModelReport.results m) /\
            0 <= ExecEvalBenchmarkModelReport.accuracy m /\
            ExecEvalBenchmarkModelReport.accuracy m <= 1)
         (ExecEvalBenchmarkReport.models r) /\
  (0 <= ExecEvalBenchmarkReport.overall_correct_count r)%Z /\
  (0 <= ExecEvalBenchmarkReport.overall_incorrect_count r)%Z /\
  0 <= ExecEvalBenchmarkReport.overall_accuracy r /\
  ExecEvalBenchmarkReport.overall_accuracy r <= 1.
Proof.
  intros H. destruct (generate_report_models cr r H) as [Hne Hm].
  split.
  - rewrite Hm. apply Forall_map.
    assert (HG : Forall (fun it => snd it <> [])
                   (groups_from (ExecEvalBenchmarkCompleteResult.results cr) []))
      by (apply groups_from_nonempty_groups; constructor).
    revert HG. apply Forall_impl. intros it Hit.
    cbn [model_report_of ExecEvalBenchmarkModelReport.correct_count
         ExecEvalBenchmarkModelReport.incorrect_count
         ExecEvalBenchmarkModelReport.results ExecEvalBenchmarkModelReport.accuracy].
    pose proof (count_correct_bounds (snd it)) as Hb.
    pose proof (len_positive _ Hit) as Hp.
    destruct Hb as [Hb1 Hb2].
    split; [exact Hb1|]. split; [apply Zle_minus_le_0; exact Hb2|].
    split; [apply Zplus_minus|].
    apply ratio_bounds; [split|]; assumption.
  - revert H. rewrite generate_report_aggregate.
    destruct (aggregate_defined cr Hne) as [f [Hf [_ [Hoc [Hoi [Hacc _]]]]]].
    rewrite Hf. cbn [bind]. intros [= <-].
    cbn [build_report ExecEvalBenchmarkReport.overall_correct_count
         ExecEvalBenchmarkReport.overall_incorrect_count
         ExecEvalBenchmarkReport.overall_accuracy].
    rewrite Hoc, Hoi, Hacc.
    pose proof (count_correct_bounds (ExecEvalBenchmarkCompleteResult.results cr)) as Hb.
    pose proof (len_positive _ Hne) as Hp.
    destruct Hb as [Hb1 Hb2].
    split; [exact Hb1|]. split; [apply Zle_minus_le_0; exact Hb2|].
    apply ratio_bounds; [split|]; assumption.
Qed.

Lemma accuracies_are_ratios_witness :
  exists r,
    generate_report Scenario.two_models = Ok r /\
    0 <= ExecEvalBenchmarkReport.overall_accuracy r /\
    ExecEvalBenchmarkReport.overall_accuracy r <= 1.
Proof.
  destruct (generate_report Scenario.two_models) as [r|e] eqn:E;
    [|vm_compute in E; discriminate E].
  exists r. split; [reflexivity|].
  exact (proj2 (proj2 (proj2 (accuracies_are_ratios Scenario.two_models r E)))).
Defined.

Lemma mean_map {A : Type} (f : A -> Q) (l : list A) :
  mean (map f l) = sumQ (map f l) / inject_Z (len l).
Proof. unfold mean, len. now rewrite length_map. Qed.

(** X13.  The three timing metrics of a report are averaged twice, each
    time with equal weights: per model over the results of the model,
    and overall over the model reports, whatever the number of results
    behind each of them. *)
Theorem timings_are_means_of_model_means (cr : ExecEvalBenchmarkCompleteResult.t)
    (r : ExecEvalBenchmarkReport.t) :
  generate_report cr = Ok r ->
  let models := ExecEvalBenchmarkReport.models r in
  ExecEvalBenchmarkReport.average_tokens_per_second r
  = mean (map ExecEvalBenchmarkModelReport.average_tokens_per_second models) /\
  ExecEvalBenchmarkReport.average_total_duration_ms r
  = mean (map ExecEvalBenchmarkModelReport.average_total_duration_ms models) /\
  ExecEvalBenchmarkReport.average_load_duration_ms r
  = mean (map ExecEvalBenchmarkModelReport.average_load_duration_ms models) /\
  Forall (fun m =>
            let results := ExecEvalBenchmarkModelReport.results m in
            ExecEvalBenchmarkModelReport.average_tokens_per_second m
            = mean (map tokens_per_second_of results) /\
            ExecEvalBenchmarkModelReport.average_total_duration_ms m
            = mean (map total_duration_ms_of results) /\
            ExecEvalBenchmarkModelReport.average_load_duration_ms m
            = mean (map load_duration_ms_of results))
         models.
Proof.
  intros H models. destruct (generate_report_models cr r H) as [Hne Hm].
  subst models. rewrite !mean_map.
  assert (Hall : Forall (fun m =>
            let results := ExecEvalBenchmarkModelReport.results m in
            ExecEvalBenchmarkModelReport.average_tokens_per_second m
            = mean (map tokens_per_second_of results) /\
            ExecEvalBenchmarkModelReport.average_total_duration_ms m
            = mean (map total_duration_ms_of results) /\
            ExecEvalBenchmarkModelReport.average_load_duration_ms m
            = mean (map load_duration_ms_of results))
         (ExecEvalBenchmarkReport.models r)).
  { rewrite Hm. apply Forall_map. apply Forall_forall. intros it _.
    cbv zeta. rewrite !mean_map. repeat split. }
  revert H. rewrite generate_report_aggregate.
  destruct (aggregate_defined cr Hne) as [f [Hf [Hrep [_ [_ [_ [Ht [Hd Hl]]]]]]]].
  rewrite Hf. cbn [bind]. intros [= <-].
  cbn [build_report ExecEvalBenchmarkReport.models
       ExecEvalBenchmarkReport.average_tokens_per_second
       ExecEvalBenchmarkReport.average_total_duration_ms
       ExecEvalBenchmarkReport.average_load_duration_ms] in Hall |- *.
  rewrite Ht, Hd, Hl, Hrep.
  repeat split; try reflexivity. rewrite <- Hrep. exact Hall.
Qed.

Lemma timings_are_means_of_model_means_witness :
  exists r,
    generate_report Scenario.two_models = Ok r /\
    ExecEvalBenchmarkReport.average_tokens_per_second r
    = mean (map ExecEvalBenchmarkModelReport.average_tokens_per_second
                (ExecEvalBenchmarkReport.models r)).
Proof.
  destruct (generate_report Scenario.two_models) as [r|e] eqn:E;
    [|vm_compute in E; discriminate E].
  exists r. split; [reflexivity|].
  exact (proj1 (timings_are_means_of_model_means Scenario.two_models r E)).
Defined.

Lemma groups_single_model k l : forall v,
  Forall (fun res => ExeEvalBenchmarkOutputResult.model res = k) l ->
  groups_from l [(k, v)] = [(k, v ++ l)].
Proof.
  unfold groups_from. induction l as [|res l IH]; intros v Hall.
  - cbn. now rewrite app_nil_r.
  - inversion Hall as [|? ? Hres Hrest]; subst.
    cbn [fold_left upsert]. rewrite String.eqb_refl.
    rewrite (IH _ Hrest), <- app_assoc. reflexivity.
Qed.

Lemma groups_of_one_model k l :
  l <> [] ->
  Forall (fun res => ExeEvalBenchmarkOutputResult.model res = k) l ->
  groups_from l [] = [(k, l)].
Proof.
  destruct l as [|res l]; [congruence|]. intros _ Hall.
  inversion Hall as [|? ? Hres Hrest]; subst.
  unfold groups_from. cbn [fold_left upsert].
  exact (groups_single_model _ l [res] Hrest).
Qed.

Lemma mean_of_one a : sumQ [a] / inject_Z (len [a]) == a.
Proof. unfold sumQ, len. cbn [fold_left List.length Z.of_nat]. field. Qed.

(** The report over the results of one model. *)
Lemma report_of_one_model cr k :
  let l := ExecEvalBenchmarkCompleteResult.results cr in
  l <> [] ->
  Forall (fun res => ExeEvalBenchmarkOutputResult.model res = k) l ->
  exists r,
    generate_report cr = Ok r /\
    ExecEvalBenchmarkReport.models r = [model_report_of (k, l)] /\
    ExecEvalBenchmarkReport.overall_correct_count r = count_correct l /\
    ExecEvalBenchmarkReport.overall_incorrect_count r = (len l - count_correct l)%Z /\
    ExecEvalBenchmarkReport.overall_accuracy r
    = inject_Z (count_correct l) / inject_Z (len l) /\
    ExecEvalBenchmarkReport.average_tokens_per_second r
    == sumQ (map tokens_per_second_of l) / inject_Z (len l) /\
    ExecEvalBenchmarkReport.average_total_duration_ms r
    == sumQ (map total_duration_ms_of l) / inject_Z (len l) /\
    ExecEvalBenchmarkReport.average_load_duration_ms r
    == sumQ (map load_duration_ms_of l) / inject_Z (len l).
Proof.
  intros l Hne Hall.
  destruct (aggregate_defined cr Hne)
    as [f [Hf [Hrep [Hoc [Hoi [Hacc [Ht [Hd Hl]]]]]]]].
  fold l in Hrep, Hoc, Hoi, Hacc, Ht, Hd, Hl.
  rewrite (groups_of_one_model k l Hne Hall) in Hrep, Ht, Hd, Hl.
  exists (build_report cr f).
  rewrite generate_report_aggregate, Hf. cbn [bind].
  split; [reflexivity|].
  cbn [build_report ExecEvalBenchmarkReport.models
       ExecEvalBenchmarkReport.overall_correct_count
       ExecEvalBenchmarkReport.overall_incorrect_count
       ExecEvalBenchmarkReport.overall_accuracy
       ExecEvalBenchmarkReport.average_tokens_per_second
       ExecEvalBenchmarkReport.average_total_duration_ms
       ExecEvalBenchmarkReport.average_load_duration_ms].
  rewrite Hrep, Hoc, Hoi, Hacc, Ht, Hd, Hl.
  do 4 (split; [reflexivity|]).
  split; [|split]; exact (mean_of_one _).
Qed.

(** X14.  When all results carry the same model string, the report has
    that one model report, holding all the results, and its overall
    counts, accuracy and timing metrics are those of the model. *)
Theorem overall_of_one_model_is_the_model (cr : ExecEvalBenchmarkCompleteResult.t)
    (k : string) :
  ExecEvalBenchmarkCompleteResult.results cr <> [] ->
  Forall (fun res => ExeEvalBenchmarkOutputResult.model res = k)
         (ExecEvalBenchmarkCompleteResult.results cr) ->
  exists r m,
    generate_report cr = Ok r /\
    ExecEvalBenchmarkReport.models r = [m] /\
    ExecEvalBenchmarkModelReport.model m = k /\
    ExecEvalBenchmarkModelReport.results m
    = ExecEvalBenchmarkCompleteResult.results cr /\
    ExecEvalBenchmarkReport.overall_correct_count r
    = ExecEvalBenchmarkModelReport.correct_count m /\
    ExecEvalBenchmarkReport.overall_incorrect_count r
    = ExecEvalBenchmarkModelReport.incorrect_count m /\
    ExecEvalBenchmarkReport.overall_accuracy r
    == ExecEvalBenchmarkModelReport.accuracy m /\
    ExecEvalBenchmarkReport.average_tokens_per_second r
    == ExecEvalBenchmarkModelReport.average_tokens_per_second m /\
    ExecEvalBenchmarkReport.average_total_duration_ms r
    == ExecEvalBenchmarkModelReport.average_total_duration_ms m /\
    ExecEvalBenchmarkReport.average_load_duration_ms r
    == ExecEvalBenchmarkModelReport.average_load_duration_ms m.
Proof.
  intros Hne Hall.
  destruct (report_of_one_model cr k Hne Hall)
    as [r [Hr [Hm [Hoc [Hoi [Hacc [Ht [Hd Hl]]]]]]]].
  exists r, (model_report_of (k, ExecEvalBenchmarkCompleteResult.results cr)).
  split; [exact Hr|]. split; [exact Hm|].
  cbn [model_report_of fst snd ExecEvalBenchmarkModelReport.model
       ExecEvalBenchmarkModelReport.results
       ExecEvalBenchmarkModelReport.correct_count
       ExecEvalBenchmarkModelReport.incorrect_count
       ExecEvalBenchmarkModelReport.accuracy
       ExecEvalBenchmarkModelReport.average_tokens_per_second
       ExecEvalBenchmarkModelReport.average_total_duration_ms
       ExecEvalBenchmarkModelReport.average_load_duration_ms].
  do 2 (split; [reflexivity|]).
  split; [exact Hoc|]. split; [exact Hoi|].
  split; [rewrite Hacc; reflexivity|].
  split; [exact Ht|]. split; [exact Hd|exact Hl].
Qed.

Lemma overall_of_one_model_is_the_model_witness :
  exists r m,
    generate_report
      {| ExecEvalBenchmarkCompleteResult.benchmark_file :=
           Scenario.benchmark raw_string_evaluator;
         ExecEvalBenchmarkCompleteResult.results :=
           [Scenario.output "A" 1 true; Scenario.output "A" 2 false] |} = Ok r /\
    ExecEvalBenchmarkReport.models r = [m] /\
    ExecEvalBenchmarkReport.overall_accuracy r
    == ExecEvalBenchmarkModelReport.accuracy m.
Proof.
  destruct (overall_of_one_model_is_the_model
              {| ExecEvalBenchmarkCompleteResult.benchmark_file :=
                   Scenario.benchmark raw_string_evaluator;
                 ExecEvalBenchmarkCompleteResult.results :=
                   [Scenario.output "A" 1 true; Scenario.output "A" 2 false] |}
              "A")
    as [r [m [Hr [Hm [_ [_ [_ [_ [Hacc _]]]]]]]]].
  - discriminate.
  - repeat constructor.
  - exists r, m. split; [exact Hr|]. split; [exact Hm|exact Hacc].
Defined.

Section RunThenReport.
Context {W : Type} (C : Collaborators W).

Lemma run_prompt_model provider name model bf i row w r w' :
  run_prompt C provider name model bf i row w = (Ok r, w') ->
  ExeEvalBenchmarkOutputResult.model r = model.
Proof.
  unfold run_prompt, bindM, ret.
  destruct (get_bench_response C provider _ name w) as [[resp|e] w1]; [|discriminate].
  destruct (parse_markdown_backticks C _ w1) as [[code|e] w2]; [|discriminate].
  destruct (evaluate_guarded C _ code _ w2) as [[[er c]|e] w3]; [|discriminate].
  intros [= <- _]. reflexivity.
Qed.

Lemma run_prompts_models provider name model bf rows : forall i results w rs w',
  run_prompts C provider name model bf i rows results w = (Ok rs, w') ->
  Forall (fun r => ExeEvalBenchmarkOutputResult.model r = model) results ->
  Forall (fun r => ExeEvalBenchmarkOutputResult.model r = model) rs /\
  List.length rs = (List.length results + List.length rows)%nat.
Proof.
  induction rows as [|row rest IH]; intros i results w rs w'.
  - cbn [run_prompts]. unfold ret. intros [= <- _] H. split; [exact H|].
    cbn [List.length]. lia.
  - cbn [run_prompts]. unfold bindM.
    destruct (run_prompt C provider name model bf i row w) as [[r|e] w1] eqn:E;
      [|discriminate].
    intros Hrun Hres.
    destruct (IH _ _ _ _ _ Hrun) as [Hall Hlen].
    + apply Forall_app. split; [exact Hres|].
      constructor; [exact (run_prompt_model _ _ _ _ _ _ _ _ _ E)|constructor].
    + split; [exact Hall|]. rewrite Hlen, length_app. cbn [List.length]. lia.
Qed.

End RunThenReport.

(** X15.  The results of one successful run over at least one prompt make
    a report: it has a single model report, under the model string as it
    was given (provider prefix included), holding the results of the run,
    and its overall counts add up to the number of prompts. *)
Theorem report_of_a_run {W : Type} (C : Collaborators W) (model : string)
    (bf : ExecEvalBenchmarkFile.t) (w w' : W) (rs : list OutputResult) :
  run_benchmark_for_model C model bf w = (Ok rs, w') ->
  ExecEvalBenchmarkFile.prompts bf <> [] ->
  exists r m,
    generate_report {| ExecEvalBenchmarkCompleteResult.benchmark_file := bf;
                       ExecEvalBenchmarkCompleteResult.results := rs |} = Ok r /\
    ExecEvalBenchmarkReport.models r = [m] /\
    ExecEvalBenchmarkModelReport.model m = model /\
    ExecEvalBenchmarkModelReport.results m = rs /\
    (ExecEvalBenchmarkReport.overall_correct_count r
     + ExecEvalBenchmarkReport.overall_incorrect_count r)%Z
    = len (ExecEvalBenchmarkFile.prompts bf).
Proof.
  unfold run_benchmark_for_model, bindM, lift.
  destruct (parse_model_string model) as [[provider name]|e]; [|discriminate].
  intros Hrun Hne.
  destruct (run_prompts_models C _ _ _ _ _ _ _ _ _ _ Hrun (Forall_nil _))
    as [Hall Hlen].
  cbn [List.length Nat.add] in Hlen.
  assert (Hrs : rs <> []).
  { intros ->. cbn in Hlen. destruct (ExecEvalBenchmarkFile.prompts bf);
      [congruence|discriminate]. }
  destruct (report_of_one_model
              {| ExecEvalBenchmarkCompleteResult.benchmark_file := bf;
                 ExecEvalBenchmarkCompleteResult.results := rs |} model Hrs Hall)
    as [r [Hr [Hm [Hoc [Hoi _]]]]].
  exists r, (model_report_of (model, rs)).
  split; [exact Hr|]. split; [exact Hm|].
  do 2 (split; [reflexivity|]).
  cbn [ExecEvalBenchmarkCompleteResult.results] in Hoc, Hoi.
  rewrite Hoc, Hoi, Zplus_minus. unfold len. apply f_equal. exact Hlen.
Qed.

Lemma report_of_a_run_witness :
  exists rs r m,
    run_benchmark_for_model Scenario.collaborators "openai~gpt-4o"
      (Scenario.benchmark execute_python_code_with_num_output) 0%nat = (Ok rs, 2%nat) /\
    generate_report
      {| ExecEvalBenchmarkCompleteResult.benchmark_file :=
           Scenario.benchmark execute_python_code_with_num_output;
         ExecEvalBenchmarkCompleteResult.results := rs |} = Ok r /\
    ExecEvalBenchmarkReport.models r = [m] /\
    ExecEvalBenchmarkModelReport.model m = "openai~gpt-4o".
Proof.
  destruct (run_benchmark_for_model Scenario.collaborators "openai~gpt-4o"
              (Scenario.benchmark execute_python_code_with_num_output) 0%nat)
    as [[rs|e] w'] eqn:E; [|vm_compute in E; discriminate E].
  assert (Hw : w' = 2%nat) by (vm_compute in E; now inversion E).
  subst w'.
  destruct (report_of_a_run Scenario.collaborators "openai~gpt-4o"
              (Scenario.benchmark execute_python_code_with_num_output)
              0%nat 2%nat rs E) as [r [m [Hr [Hm [Hk _]]]]].
  - discriminate.
  - exists rs, r, m. repeat split; assumption.
Defined.

(** ** File operations *)

Lemma prefix_single a c s :
  prefix (String a EmptyString) (String c s) = Ascii.eqb a c.
Proof.
  cbn [prefix]. destruct (ascii_dec a c) as [<-|Hne].
  - rewrite Ascii.eqb_refl. now destruct s.
  - symmetry. now apply Ascii.eqb_neq.
Qed.

Lemma safe_benchmark_name_cons c s :
  safe_benchmark_name (String c s)
  = String (if Ascii.eqb " "%char c then "_"%char else c) (safe_benchmark_name s).
Proof.
  unfold safe_benchmark_name, PyStr.replace.
  cbn [PyStr.replace_from]. rewrite prefix_single.
  destruct (Ascii.eqb " "%char c); reflexivity.
Qed.

Lemma safe_benchmark_name_length s :
  String.length (safe_benchmark_name s) = String.length s.
Proof.
  induction s as [|c s IH]; [reflexivity|].
  rewrite safe_benchmark_name_cons. cbn [String.length]. now rewrite IH.
Qed.

Lemma safe_benchmark_name_no_space s :
  PyStr.contains " " (safe_benchmark_name s) = false.
Proof.
  induction s as [|c s IH]; [reflexivity|].
  rewrite safe_benchmark_name_cons. cbn [PyStr.contains].
  rewrite prefix_single, IH.
  destruct (Ascii.eqb " "%char c) eqn:E; [reflexivity|]. now rewrite E.
Qed.

Lemma safe_benchmark_name_unchanged s :
  PyStr.contains " " s = false -> safe_benchmark_name s = s.
Proof.
  induction s as [|c s IH]; [reflexivity|].
  cbn [PyStr.contains]. rewrite prefix_single. intros H.
  apply orb_false_iff in H as [Hc Hs].
  now rewrite safe_benchmark_name_cons, Hc, (IH Hs).
Qed.

(** X16.  When [save_report_to_file] returns, the path it returns is the
    one it opened and wrote the serialised report to: the output
    directory, "/", the benchmark name, "_", the time stamp and ".json",
    where the benchmark name has every space replaced by "_" and is
    otherwise unchanged (same length, no space left). *)
Theorem saved_report_path {W : Type} (S : Storage W)
    (report : ExecEvalBenchmarkReport.t) (output_dir path : string) (w w' : W) :
  save_report_to_file S report output_dir w = (Ok path, w') ->
  exists timestamp json w1 w2 w3 w4,
    mkdir_exist_ok S output_dir w = (Ok tt, w1) /\
    now_strftime S w1 = (Ok timestamp, w2) /\
    open_w S path w2 = (Ok tt, w3) /\
    model_dump_json S report w3 = (Ok json, w4) /\
    write_text S path json w4 = (Ok tt, w') /\
    path = (output_dir ++ "/"
            ++ safe_benchmark_name (ExecEvalBenchmarkReport.benchmark_name report)
            ++ "_" ++ timestamp ++ ".json")%string /\
    String.length (safe_benchmark_name (ExecEvalBenchmarkReport.benchmark_name report))
    = String.length (ExecEvalBenchmarkReport.benchmark_name report) /\
    PyStr.contains " "
      (safe_benchmark_name (ExecEvalBenchmarkReport.benchmark_name report)) = false /\
    (PyStr.contains " " (ExecEvalBenchmarkReport.benchmark_name report) = false ->
     safe_benchmark_name (ExecEvalBenchmarkReport.benchmark_name report)
     = ExecEvalBenchmarkReport.benchmark_name report).
Proof.
  unfold save_report_to_file, bindM, ret.
  destruct (mkdir_exist_ok S output_dir w) as [[[]|e] w1] eqn:E1; [|discriminate].
  destruct (now_strftime S w1) as [[timestamp|e] w2] eqn:E2; [|discriminate].
  destruct (open_w S _ w2) as [[[]|e] w3] eqn:E3; [|discriminate].
  destruct (model_dump_json S report w3) as [[json|e] w4] eqn:E4; [|discriminate].
  destruct (write_text S _ json w4) as [[[]|e] w5] eqn:E5; [|discriminate].
  intros [= <- <-].
  exists timestamp, json, w1, w2, w3, w4.
  repeat (split; [first [reflexivity | assumption]|]).
  split; [apply safe_benchmark_name_length|].
  split; [apply safe_benchmark_name_no_space|apply safe_benchmark_name_unchanged].
Qed.

Lemma saved_report_path_witness :
  exists r path files,
    generate_report Scenario.two_models = Ok r /\
    save_report_to_file scenario_storage r "my reports" [] = (Ok path, files) /\
    path = "my reports/sums_20250101_120000.json" /\
    map fst files = [path; path].
Proof.
  destruct (generate_report Scenario.two_models) as [r|e] eqn:E;
    [|vm_compute in E; discriminate E].
  assert (Hn : ExecEvalBenchmarkReport.benchmark_name r = "sums")
    by (vm_compute in E; now inversion E).
  destruct (save_report_to_file scenario_storage r "my reports" [])
    as [[path|e] files] eqn:Es.
  - destruct (saved_report_path scenario_storage r "my reports" path [] files Es)
      as [ts [json [w1 [w2 [w3 [w4 [H1 [H2 [H3 [H4 [H5 [Hp _]]]]]]]]]]]].
    exists r, path, files. split; [reflexivity|]. split; [exact Es|].
    inversion H1; subst w1. inversion H2; subst ts w2.
    rewrite Hn in Hp. split; [exact Hp|].
    inversion H3; subst w3. inversion H4; subst w4. inversion H5. reflexivity.
  - unfold save_report_to_file, bindM in Es. cbn in Es. discriminate Es.
Defined.
